(** * The OpenTelemetry span processor of the Sentry SDK

    A shallow embedding of
    [sentry_sdk/integrations/opentelemetry/span_processor.py]: the processor
    that turns OpenTelemetry spans into Sentry spans and transactions, with
    the properties its specification states about it.

    Python values are modelled as follows.
    - The class attribute [otel_span_map] is a dictionary from formatted span
      ids to Sentry span objects.  Sentry spans are mutable objects that are
      shared between the dictionary and their children, so the model keeps an
      object store ([objects], a list indexed by references) next to the
      dictionary, and the dictionary holds references.
    - A method is a computation over the processor state that either returns
      or raises; the state reached at a raise is kept, since a Python
      exception does not roll back earlier mutations.
    - [datetime.fromtimestamp(t / 1e9)] is a floating point conversion that
      raises for times out of the range of the platform; its result is kept
      symbolic and the times it raises for are a parameter (see [datetime]
      and [platform]). *)

From Stdlib Require Import ZArith NArith Ascii Lia.
From stdpp Require Import base option list gmap strings pretty fin_maps.


(** ** Python values *)

(** The values an OpenTelemetry attribute can hold (scalars). *)
Inductive attr_value : Type :=
  | VStr (s : string)
  | VInt (z : Z)
  | VBool (b : bool).

(** Python's truth value of an attribute value. *)
Definition truthy (v : attr_value) : bool :=
  match v with
  | VStr s => negb (String.eqb s "")
  | VInt z => negb (z =? 0)%Z
  | VBool b => b
  end.

(** The test [if x:] on the result [x] of [dict.get(key, None)]: the value
    when the branch is taken, nothing when the key is absent ([None]) or its
    value is false. *)
Definition if_truthy (x : option attr_value) : option attr_value :=
  match x with
  | Some v => if truthy v then Some v else None
  | None => None
  end.

(** [str(v)], which is what ["{}".format(v)] inserts. *)
Definition py_str (v : attr_value) : string :=
  match v with
  | VStr s => s
  | VInt z => pretty z
  | VBool true => "True"
  | VBool false => "False"
  end.

(** The exceptions [datetime.fromtimestamp(t / 1e9)] raises for a time it
    cannot convert: [ValueError] (year out of range), [OverflowError] (the
    integer does not fit a float, or the seconds do not fit [time_t]) and
    [OSError] (the C library's [localtime] fails). *)
Inductive time_error : Type :=
  | ValueError
  | OverflowError
  | OSError.

(** The exceptions the modelled code can raise; [TimeError e] is the
    exception [e] of a time conversion. *)
Inductive exn : Type :=
  | KeyError (key : string)
  | TypeError
  | TimeError (e : time_error).

(** ** Formatting of identifiers

    [format_span_id] and [format_trace_id] of [opentelemetry.trace] are
    [format(span_id, "016x")] and [format(trace_id, "032x")]: lowercase
    hexadecimal, padded with zeros to a minimal width. *)

Definition hex_digit (d : N) : Ascii.ascii :=
  match d with
  | 0 => "0" | 1 => "1" | 2 => "2" | 3 => "3" | 4 => "4" | 5 => "5"
  | 6 => "6" | 7 => "7" | 8 => "8" | 9 => "9" | 10 => "a" | 11 => "b"
  | 12 => "c" | 13 => "d" | 14 => "e" | _ => "f"
  end%N%char.

(** The [k] least significant hexadecimal digits of [n], most significant
    first, in front of [acc]. *)
Fixpoint hex_digits (k : nat) (n : N) (acc : string) : string :=
  match k with
  | O => acc
  | S k' => hex_digits k' (n / 16)%N (String (hex_digit (n mod 16)%N) acc)
  end.

(** The number of hexadecimal digits of [n] (one for zero). *)
Definition hex_length (n : N) : nat :=
  match n with
  | 0%N => 1%nat
  | _ => S (N.to_nat (N.log2 n / 4))
  end.

Definition format_hex (width : nat) (n : N) : string :=
  hex_digits (Nat.max width (hex_length n)) n "".

Definition format_span_id (span_id : N) : string := format_hex 16 span_id.
Definition format_trace_id (trace_id : N) : string := format_hex 32 trace_id.

(** ** Timestamps *)

(** The result of [datetime.fromtimestamp(t / 1e9)] for an integer number
    [t] of nanoseconds, when there is one.  The division is a floating point
    one; the model keeps the conversion symbolic and records the nanoseconds
    it was applied to. *)
Record datetime : Type := fromtimestamp_1e9 { nanoseconds : Z }.

(** Which times [datetime.fromtimestamp(t / 1e9)] cannot convert, and the
    exception it raises for them.  This depends on the platform (the range
    of [time_t], the local time zone, the C library), so it is a parameter
    of the methods that convert a time. *)
Definition platform : Type := Z → option time_error.

(** ** OpenTelemetry spans *)

Module OTel.

Record span_context : Type := SpanContext {
  trace_id : N;
  span_id : N;
}.

(** The fields of an OpenTelemetry span the processor reads;
    [resource_attributes] is [otel_span.resource.attributes]. *)
Record span : Type := Span {
  name : string;
  context : span_context;
  parent : option span_context;
  start_time : Z;
  end_time : Z;
  attributes : gmap string attr_value;
  resource_attributes : gmap string attr_value;
}.

End OTel.

(** The ambient context as [get_value] reads it: the value under
    [SENTRY_TRACE_KEY] is a triple (trace id, parent span id, parent
    sampled) or absent, the value under [SENTRY_BAGGAGE_KEY] a baggage
    string or absent. *)
Record parent_context : Type := ParentContext {
  sentry_trace : option (string * string * option bool);
  sentry_baggage : option string;
}.

(** [get_value(SENTRY_TRACE_KEY, parent_context)] and
    [get_value(SENTRY_BAGGAGE_KEY, parent_context)]. *)
Definition get_value_sentry_trace (ctx : parent_context) := sentry_trace ctx.
Definition get_value_sentry_baggage (ctx : parent_context) := sentry_baggage ctx.

(** ** Sentry spans *)

Module Sentry.

(** A reference to a Sentry span object in the object store. *)
Abbreviation ref := nat (only parsing).

(** The keyword arguments of [hub.start_transaction(...)]. *)
Record transaction_kwargs : Type := TransactionKwargs {
  tx_name : string;
  tx_span_id : string;
  tx_parent_span_id : option string;
  tx_trace_id : string;
  tx_baggage : option string;
  tx_start_timestamp : datetime;
  tx_instrumenter : string;
}.

(** The keyword arguments of [sentry_parent_span.start_child(...)]. *)
Record child_kwargs : Type := ChildKwargs {
  ch_span_id : string;
  ch_description : string;
  ch_start_timestamp : datetime;
  ch_instrumenter : string;
}.

(** How an object came to be: the call that made it, with the object
    [start_child] was called on. *)
Inductive creation : Type :=
  | start_transaction (kwargs : transaction_kwargs)
  | start_child (parent : ref) (kwargs : child_kwargs).

(** The context block [set_context] attaches: a dictionary with the
    entries ["attributes"] and ["resource"]. *)
Abbreviation context_block := (gmap string (gmap string attr_value)) (only parsing).

(** Modelled from the spec: the native span or transaction of
    [sentry_sdk.tracing], which lies outside the processor's module.  An
    object has an operation name, a description, a data mapping, a status
    set from an HTTP status code, and, for a transaction, a name and
    context blocks; [timestamp] is the end time [finish] was given.
    [http_status] keeps the code handed to [set_http_status], from which
    the native tracer derives its tag and status category. *)
Record span : Type := Span {
  created : creation;
  op : option string;
  name : option string;
  description : option attr_value;
  data : gmap string attr_value;
  http_status : option attr_value;
  contexts : gmap string context_block;
  timestamp : option datetime;
}.

(** [isinstance(sentry_span, Transaction)]. *)
Definition is_transaction (o : span) : bool :=
  match created o with
  | start_transaction _ => true
  | start_child _ _ => false
  end.

(** The object a creating call returns. *)
Definition new_transaction (kwargs : transaction_kwargs) : span :=
  {| created := start_transaction kwargs; op := None;
     name := Some (tx_name kwargs); description := None; data := ∅;
     http_status := None; contexts := ∅; timestamp := None |}.

Definition new_child (parent : ref) (kwargs : child_kwargs) : span :=
  {| created := start_child parent kwargs; op := None; name := None;
     description := Some (VStr (ch_description kwargs)); data := ∅;
     http_status := None; contexts := ∅; timestamp := None |}.

(** Attribute assignments and setters, as functions on the object. *)
Definition with_op (v : string) (o : span) : span :=
  {| created := created o; op := Some v; name := name o;
     description := description o; data := data o;
     http_status := http_status o; contexts := contexts o;
     timestamp := timestamp o |}.

Definition with_name (v : string) (o : span) : span :=
  {| created := created o; op := op o; name := Some v;
     description := description o; data := data o;
     http_status := http_status o; contexts := contexts o;
     timestamp := timestamp o |}.

Definition with_description (v : attr_value) (o : span) : span :=
  {| created := created o; op := op o; name := name o;
     description := Some v; data := data o;
     http_status := http_status o; contexts := contexts o;
     timestamp := timestamp o |}.

Definition with_data (key : string) (v : attr_value) (o : span) : span :=
  {| created := created o; op := op o; name := name o;
     description := description o; data := <[key := v]> (data o);
     http_status := http_status o; contexts := contexts o;
     timestamp := timestamp o |}.

Definition with_http_status (v : attr_value) (o : span) : span :=
  {| created := created o; op := op o; name := name o;
     description := description o; data := data o;
     http_status := Some v; contexts := contexts o;
     timestamp := timestamp o |}.

Definition with_context (key : string) (v : context_block) (o : span) : span :=
  {| created := created o; op := op o; name := name o;
     description := description o; data := data o;
     http_status := http_status o; contexts := <[key := v]> (contexts o);
     timestamp := timestamp o |}.

Definition with_timestamp (v : datetime) (o : span) : span :=
  {| created := created o; op := op o; name := name o;
     description := description o; data := data o;
     http_status := http_status o; contexts := contexts o;
     timestamp := Some v |}.

#[global] Instance span_inhabited : Inhabited span :=
  populate (new_transaction
    (TransactionKwargs "" "" None "" None (fromtimestamp_1e9 0) "")).

End Sentry.

(** ** The processor state and its methods *)

(** [otel_span_map] is the class attribute of [SentrySpanProcessor]; the
    class is a singleton, so there is one such dictionary.  [objects] is the
    store of the Sentry objects made so far; a reference is an index in it. *)
Record processor : Type := Processor {
  otel_span_map : gmap string Sentry.ref;
  objects : list Sentry.span;
}.

Inductive outcome (A : Type) : Type :=
  | Returns (a : A)
  | Raises (e : exn).
Arguments Returns {A} a.
Arguments Raises {A} e.

(** A method body: from a state to an outcome and the state it leaves. *)
Definition method (A : Type) : Type := processor → outcome A * processor.

#[global] Instance method_ret : MRet method := λ A a st, (Returns a, st).

#[global] Instance method_bind : MBind method := λ A B f m st,
  match m st with
  | (Returns a, st') => f a st'
  | (Raises e, st') => (Raises e, st')
  end.

Definition raise {A : Type} (e : exn) : method A := λ st, (Raises e, st).

(** [self.otel_span_map.get(key, None)]. *)
Definition map_get (key : string) : method (option Sentry.ref) :=
  λ st, (Returns (otel_span_map st !! key), st).

(** [self.otel_span_map[key] = r]. *)
Definition map_set (key : string) (r : Sentry.ref) : method unit :=
  λ st, (Returns (), Processor (<[key := r]> (otel_span_map st)) (objects st)).

(** [self.otel_span_map.pop(key)]: without a default, a missing key raises
    [KeyError]. *)
Definition map_pop (key : string) : method Sentry.ref :=
  λ st, match otel_span_map st !! key with
        | Some r => (Returns r, Processor (delete key (otel_span_map st)) (objects st))
        | None => (Raises (KeyError key), st)
        end.

(** A new object in the store; its reference is returned. *)
Definition alloc (o : Sentry.span) : method Sentry.ref :=
  λ st, (Returns (length (objects st)),
         Processor (otel_span_map st) (objects st ++ [o])).

(** The object behind a reference. *)
Definition read (r : Sentry.ref) : method Sentry.span :=
  λ st, (Returns (objects st !!! r), st).

(** A mutation of the object behind a reference. *)
Definition update (r : Sentry.ref) (f : Sentry.span → Sentry.span) : method unit :=
  λ st, (Returns (), Processor (otel_span_map st) (alter f r (objects st))).

(** [for x in l: body(x)]. *)
Fixpoint for_each {A : Type} (l : list A) (body : A → method unit) : method unit :=
  match l with
  | [] => mret ()
  | x :: l' => body x ;; for_each l' body
  end.

(** [datetime.fromtimestamp(t / 1e9)] on a platform. *)
Definition fromtimestamp (pf : platform) (t : Z) : method datetime :=
  match pf t with
  | None => mret (fromtimestamp_1e9 t)
  | Some e => raise (TimeError e)
  end.

(** [d += s] for a string [s]: concatenation when [d] is a string, a
    [TypeError] otherwise. *)
Definition iadd_str (d : attr_value) (s : string) : method attr_value :=
  match d with
  | VStr a => mret (VStr (a +:+ s))
  | _ => raise TypeError
  end.

(** ** The calls into the Sentry SDK *)

(** Modelled from the spec: "start a transaction" of the native tracer,
    [hub.start_transaction(...)]; it makes a new transaction object. *)
Definition hub_start_transaction (kwargs : Sentry.transaction_kwargs)
  : method Sentry.ref :=
  alloc (Sentry.new_transaction kwargs).

(** Modelled from the spec: "start a child span",
    [sentry_parent_span.start_child(...)]; it makes a new span object
    attached to the object it is called on. *)
Definition start_child (sentry_parent_span : Sentry.ref)
  (kwargs : Sentry.child_kwargs) : method Sentry.ref :=
  alloc (Sentry.new_child sentry_parent_span kwargs).

(** Modelled from the spec: "set data(key, value)". *)
Definition set_data (sentry_span : Sentry.ref) (key : string) (val : attr_value)
  : method unit :=
  update sentry_span (Sentry.with_data key val).

(** Modelled from the spec: "set a tag from an HTTP status code". *)
Definition set_http_status (sentry_span : Sentry.ref) (status_code : attr_value)
  : method unit :=
  update sentry_span (Sentry.with_http_status status_code).

(** Modelled from the spec: the context block attached to a transaction
    under a key. *)
Definition set_context (sentry_span : Sentry.ref) (key : string)
  (value : Sentry.context_block) : method unit :=
  update sentry_span (Sentry.with_context key value).

(** Modelled from the spec: "finish(end time)". *)
Definition finish (sentry_span : Sentry.ref) (end_timestamp : datetime)
  : method unit :=
  update sentry_span (Sentry.with_timestamp end_timestamp).

(** ** span_processor.py *)

Definition OPEN_TELEMETRY_CONTEXT : string := "otel".

(** The attribute names of [opentelemetry.semconv.trace.SpanAttributes]. *)
Module SpanAttributes.
Definition HTTP_METHOD : string := "http.method".
Definition HTTP_TARGET : string := "http.target".
Definition HTTP_STATUS_CODE : string := "http.status_code".
Definition NET_PEER_NAME : string := "net.peer.name".
Definition DB_SYSTEM : string := "db.system".
Definition DB_STATEMENT : string := "db.statement".
End SpanAttributes.

(** The dictionary [_get_trace_data] returns. *)
Record trace_data : Type := TraceData {
  td_span_id : string;
  td_trace_id : string;
  td_parent_span_id : option string;
  td_parent_sampled : option bool;
  td_baggage : option string;
}.

Definition _get_trace_data (otel_span : OTel.span) (ctx : parent_context)
  : trace_data :=
  let span_id := format_span_id (OTel.span_id (OTel.context otel_span)) in
  let trace_id := format_trace_id (OTel.trace_id (OTel.context otel_span)) in
  let parent_span_id :=
    match OTel.parent otel_span with
    | Some parent => Some (format_span_id (OTel.span_id parent))
    | None => None
    end in
  let sentry_trace_data := get_value_sentry_trace ctx in
  let parent_sampled :=
    match sentry_trace_data with
    | Some (_, _, sampled) => sampled
    | None => None
    end in
  let baggage := get_value_sentry_baggage ctx in
  {| td_span_id := span_id; td_trace_id := trace_id;
     td_parent_span_id := parent_span_id;
     td_parent_sampled := parent_sampled; td_baggage := baggage |}.

(** [on_start(otel_span, parent_context)]; [hub] tells whether
    [Hub.current] is there ([if not hub: return]).  A formatted parent id
    is looked up only when it is a non-empty string
    ([... if parent_span_id else None]); a Sentry object found in the
    dictionary is always true in [if sentry_parent_span].  The arguments of
    [start_child] and [start_transaction] are evaluated before the call, so
    a start time that cannot be converted raises before an object is
    made. *)
Definition on_start (pf : platform) (hub : bool) (otel_span : OTel.span)
  (ctx : parent_context) : method unit :=
  if negb hub then mret () else
  let trace_data := _get_trace_data otel_span ctx in
  let parent_span_id := td_parent_span_id trace_data in
  sentry_parent_span ←
    match parent_span_id with
    | Some id => if String.eqb id "" then mret None else map_get id
    | None => mret None
    end;
  sentry_span ←
    match sentry_parent_span with
    | Some parent =>
        start_timestamp ← fromtimestamp pf (OTel.start_time otel_span);
        start_child parent
          {| Sentry.ch_span_id := td_span_id trace_data;
             Sentry.ch_description := OTel.name otel_span;
             Sentry.ch_start_timestamp := start_timestamp;
             Sentry.ch_instrumenter := "sentry" |}
    | None =>
        start_timestamp ← fromtimestamp pf (OTel.start_time otel_span);
        hub_start_transaction
          {| Sentry.tx_name := OTel.name otel_span;
             Sentry.tx_span_id := td_span_id trace_data;
             Sentry.tx_parent_span_id := parent_span_id;
             Sentry.tx_trace_id := td_trace_id trace_data;
             Sentry.tx_baggage := td_baggage trace_data;
             Sentry.tx_start_timestamp := start_timestamp;
             Sentry.tx_instrumenter := "sentry" |}
    end;
  map_set (td_span_id trace_data) sentry_span.

(** [_get_otel_context(otel_span)]: an entry for each of the two attribute
    dictionaries that is not empty. *)
Definition _get_otel_context (otel_span : OTel.span) : Sentry.context_block :=
  let ctx : Sentry.context_block := ∅ in
  let ctx :=
    if decide (OTel.attributes otel_span = ∅) then ctx
    else <["attributes" := OTel.attributes otel_span]> ctx in
  let ctx :=
    if decide (OTel.resource_attributes otel_span = ∅) then ctx
    else <["resource" := OTel.resource_attributes otel_span]> ctx in
  ctx.

(** [_update_span_with_otel_data(sentry_span, otel_span)]. *)
Definition _update_span_with_otel_data (sentry_span : Sentry.ref)
  (otel_span : OTel.span) : method unit :=
  let attributes := OTel.attributes otel_span in
  for_each (map_to_list attributes)
    (λ '(key, val), set_data sentry_span key val);;
  let op := OTel.name otel_span in
  let description := VStr (OTel.name otel_span) in
  let http_method := attributes !! SpanAttributes.HTTP_METHOD in
  let db_query := attributes !! SpanAttributes.DB_SYSTEM in
  '(op, description) ←
    match if_truthy http_method with
    | Some http_method =>
        let op := "http." +:+ py_str http_method in
        let description := http_method in
        let peer_name := attributes !! SpanAttributes.NET_PEER_NAME in
        description ←
          match if_truthy peer_name with
          | Some peer_name => iadd_str description (" " +:+ py_str peer_name)
          | None => mret description
          end;
        let target := attributes !! SpanAttributes.HTTP_TARGET in
        description ←
          match if_truthy target with
          | Some target => iadd_str description (" " +:+ py_str target)
          | None => mret description
          end;
        let status_code := attributes !! SpanAttributes.HTTP_STATUS_CODE in
        match if_truthy status_code with
        | Some status_code => set_http_status sentry_span status_code
        | None => mret ()
        end;;
        mret (op, description)
    | None =>
        match if_truthy db_query with
        | Some _ =>
            let op := "db" in
            let statement := attributes !! SpanAttributes.DB_STATEMENT in
            match if_truthy statement with
            | Some statement => mret (op, statement)
            | None => mret (op, description)
            end
        | None => mret (op, description)
        end
    end;
  update sentry_span (Sentry.with_op op);;
  update sentry_span (Sentry.with_description description).

(** [on_end(otel_span)].  The object popped from the dictionary is a Sentry
    span, which is true in [if not sentry_span], so that test never
    returns.  The end time is converted when the argument of [finish] is
    evaluated, after the object has been popped and updated. *)
Definition on_end (pf : platform) (otel_span : OTel.span) : method unit :=
  let span_id := format_span_id (OTel.span_id (OTel.context otel_span)) in
  sentry_span ← map_pop span_id;
  update sentry_span (Sentry.with_op (OTel.name otel_span));;
  o ← read sentry_span;
  (if Sentry.is_transaction o then
     update sentry_span (Sentry.with_name (OTel.name otel_span));;
     set_context sentry_span OPEN_TELEMETRY_CONTEXT (_get_otel_context otel_span)
   else
     _update_span_with_otel_data sentry_span otel_span);;
  end_timestamp ← fromtimestamp pf (OTel.end_time otel_span);
  finish sentry_span end_timestamp.

(** ** Replaying start and end notifications *)

(** What the OpenTelemetry tracer tells the processor. *)
Inductive event : Type :=
  | Start (hub : bool) (otel_span : OTel.span) (ctx : parent_context)
  | End (otel_span : OTel.span).

(** The state a notification leaves; an exception goes to the caller, and
    the state reached when it was raised stays. *)
Definition notify (pf : platform) (e : event) (st : processor) : processor :=
  match e with
  | Start hub otel_span ctx => (on_start pf hub otel_span ctx st).2
  | End otel_span => (on_end pf otel_span st).2
  end.

(** The state after a history of notifications, the latest first, from the
    empty dictionary of a new process. *)
Fixpoint replay (pf : platform) (history : list event) : processor :=
  match history with
  | [] => Processor ∅ []
  | e :: earlier => notify pf e (replay pf earlier)
  end.

(** The formatted id under which a span is tracked. *)
Definition key_of (otel_span : OTel.span) : string :=
  format_span_id (OTel.span_id (OTel.context otel_span)).

(** Whether a span id is started and not yet ended in a history (the latest
    notification first): the latest notification about the id is a start
    under an active session. *)
Fixpoint live (history : list event) (id : string) : bool :=
  match history with
  | [] => false
  | Start hub otel_span _ :: earlier =>
      if hub && bool_decide (key_of otel_span = id) then true
      else live earlier id
  | End otel_span :: earlier =>
      if bool_decide (key_of otel_span = id) then false
      else live earlier id
  end.

(** Whether a span id is tracked after a history: the latest notification
    about the id that took effect is a start under an active session whose
    start time the platform converts. *)
Fixpoint tracked_live (pf : platform) (history : list event) (id : string)
  : bool :=
  match history with
  | [] => false
  | Start hub otel_span _ :: earlier =>
      if hub && bool_decide (pf (OTel.start_time otel_span) = None)
         && bool_decide (key_of otel_span = id)
      then true
      else tracked_live pf earlier id
  | End otel_span :: earlier =>
      if bool_decide (key_of otel_span = id) then false
      else tracked_live pf earlier id
  end.

(** Whether the platform converts the start time of every span started
    under an active session in a history. *)
Fixpoint starts_convertible (pf : platform) (history : list event) : bool :=
  match history with
  | [] => true
  | Start hub otel_span _ :: earlier =>
      (negb hub || bool_decide (pf (OTel.start_time otel_span) = None))
      && starts_convertible pf earlier
  | End _ :: earlier => starts_convertible pf earlier
  end.

(** The object [on_end] looks for in the dictionary, if any. *)
Definition tracked (st : processor) (otel_span : OTel.span) : option Sentry.ref :=
  otel_span_map st !! key_of otel_span.

(** The Sentry parent [on_start] finds for a span, if any. *)
Definition tracked_parent (st : processor) (otel_span : OTel.span)
  : option Sentry.ref :=
  match OTel.parent otel_span with
  | Some parent => otel_span_map st !! format_span_id (OTel.span_id parent)
  | None => None
  end.

(** ** The effect of classification on an object *)

(** The object with every entry of [attrs] put into its data. *)
Definition copy_data (attrs : gmap string attr_value) (o : Sentry.span)
  : Sentry.span :=
  {| Sentry.created := Sentry.created o; Sentry.op := Sentry.op o;
     Sentry.name := Sentry.name o; Sentry.description := Sentry.description o;
     Sentry.data := attrs ∪ Sentry.data o;
     Sentry.http_status := Sentry.http_status o;
     Sentry.contexts := Sentry.contexts o;
     Sentry.timestamp := Sentry.timestamp o |}.

(** The description so far with one more part after a space, when the part
    is there and true; nothing when the description so far is not a string
    (the [TypeError] of [+=]). *)
Definition add_part (description : attr_value) (part : option attr_value)
  : option attr_value :=
  match if_truthy part with
  | Some v =>
      match description with
      | VStr a => Some (VStr (a +:+ " " +:+ py_str v))
      | _ => None
      end
  | None => Some description
  end.

(** The description of the HTTP rules: the method, then the peer name, then
    the target. *)
Definition http_description (http_method : attr_value)
  (attrs : gmap string attr_value) : option attr_value :=
  d ← add_part http_method (attrs !! SpanAttributes.NET_PEER_NAME);
  add_part d (attrs !! SpanAttributes.HTTP_TARGET).

(** The HTTP status set from the status code, when it is there and true. *)
Definition http_status_of (attrs : gmap string attr_value) (o : Sentry.span)
  : Sentry.span :=
  match if_truthy (attrs !! SpanAttributes.HTTP_STATUS_CODE) with
  | Some status_code => Sentry.with_http_status status_code o
  | None => o
  end.

(** ** Concrete spans and states *)

Definition no_context : parent_context := ParentContext None None.

(** An example of a platform, for the samples: local time is UTC, so the
    seconds of the years 1 to 9999 are converted; beyond them the platform
    raises [OverflowError] when the seconds do not fit the 64 bits of
    [time_t], and [ValueError] (year out of range) otherwise. *)
Definition sample_platform : platform := λ t,
  let seconds := (t `div` 1000000000)%Z in
  if decide (-62135596800 ≤ seconds < 253402300800)%Z then None
  else if decide (- 2 ^ 63 ≤ seconds < 2 ^ 63)%Z then Some ValueError
  else Some OverflowError.

(** A span without a parent, with id [abcdef1234567890]. *)
Definition root_span : OTel.span :=
  {| OTel.name := "Sample OTel Root";
     OTel.context :=
       OTel.SpanContext 0x1234567890abcdef1234567890abcdef 0xabcdef1234567890;
     OTel.parent := None;
     OTel.start_time := 1000000000; OTel.end_time := 5000000000;
     OTel.attributes := {[ "foo" := VStr "bar" ]};
     OTel.resource_attributes := {[ "baz" := VStr "qux" ]} |}.

(** A span with id [1234567890abcdef] and the attributes [attrs], under the
    parent [parent]. *)
Definition sample_span (parent : option OTel.span_context)
  (attrs : gmap string attr_value) : OTel.span :=
  {| OTel.name := "Sample OTel Span";
     OTel.context :=
       OTel.SpanContext 0x1234567890abcdef1234567890abcdef 0x1234567890abcdef;
     OTel.parent := parent;
     OTel.start_time := 2000000000; OTel.end_time := 3000000000;
     OTel.attributes := attrs;
     OTel.resource_attributes := ∅ |}.

Definition child_span (attrs : gmap string attr_value) : OTel.span :=
  sample_span (Some (OTel.context root_span)) attrs.

(** The state in which [root_span] has started. *)
Definition root_started : processor :=
  replay sample_platform [Start true root_span no_context].

(** The state in which [root_span] and then a child of it have started. *)
Definition child_started (attrs : gmap string attr_value) : processor :=
  replay sample_platform
         [Start true (child_span attrs) no_context;
          Start true root_span no_context].

Definition http_attributes : gmap string attr_value :=
  {[ "http.method" := VStr "GET"; "net.peer.name" := VStr "example.com";
     "http.target" := VStr "/"; "http.status_code" := VInt 429 ]}.

Definition db_attributes : gmap string attr_value :=
  {[ "db.system" := VStr "postgresql";
     "db.statement" := VStr "SELECT * FROM t" ]}.

(** A span as [sample_span] whose start and end are beyond the year 9999:
    10^21 and 10^30 nanoseconds. *)
Definition late_span (parent : option OTel.span_context) : OTel.span :=
  {| OTel.name := "Sample OTel Span";
     OTel.context :=
       OTel.SpanContext 0x1234567890abcdef1234567890abcdef 0x1234567890abcdef;
     OTel.parent := parent;
     OTel.start_time := 10 ^ 21; OTel.end_time := 10 ^ 30;
     OTel.attributes := ∅;
     OTel.resource_attributes := ∅ |}.

(** The root span with an end beyond the range of [time_t]. *)
Definition late_root_span : OTel.span :=
  {| OTel.name := OTel.name root_span;
     OTel.context := OTel.context root_span;
     OTel.parent := None;
     OTel.start_time := OTel.start_time root_span;
     OTel.end_time := 10 ^ 30;
     OTel.attributes := OTel.attributes root_span;
     OTel.resource_attributes := OTel.resource_attributes root_span |}.


(** ** Views of a state used in the further properties *)

(** The attribute names classification looks up. *)
Definition recognized : list string :=
  [SpanAttributes.HTTP_METHOD; SpanAttributes.NET_PEER_NAME;
   SpanAttributes.HTTP_TARGET; SpanAttributes.HTTP_STATUS_CODE;
   SpanAttributes.DB_SYSTEM; SpanAttributes.DB_STATEMENT].

(** What classification decides on an object. *)
Definition classification_view (o : Sentry.span)
  : option string * option attr_value * option attr_value :=
  (Sentry.op o, Sentry.description o, Sentry.http_status o).

(** The span id an object was created with. *)
Definition created_span_id (o : Sentry.span) : string :=
  match Sentry.created o with
  | Sentry.start_transaction kwargs => Sentry.tx_span_id kwargs
  | Sentry.start_child _ kwargs => Sentry.ch_span_id kwargs
  end.

(** Every entry of the dictionary refers to an object of the store that was
    created with the entry's key as span id and that [on_end] has not
    touched yet: no operation set, not finished. *)
Definition tracked_untouched (st : processor) : Prop :=
  ∀ id r, otel_span_map st !! id = Some r →
    ∃ o, objects st !! r = Some o
         ∧ created_span_id o = id
         ∧ Sentry.op o = None
         ∧ Sentry.timestamp o = None.

(** Every child in the store was started on an object made before it. *)
Definition parents_before (st : processor) : Prop :=
  ∀ r o parent kwargs, objects st !! r = Some o →
    Sentry.created o = Sentry.start_child parent kwargs → parent < r.

(** The characters of lowercase hexadecimal. *)
Definition is_lower_hex (c : Ascii.ascii) : bool :=
  bool_decide (c ∈ [("0" : Ascii.ascii); "1"; "2"; "3"; "4"; "5"; "6"; "7";
                    "8"; "9"; "a"; "b"; "c"; "d"; "e"; "f"]%char).

Fixpoint string_forall (p : Ascii.ascii → bool) (s : string) : bool :=
  match s with
  | EmptyString => true
  | String c s' => p c && string_forall p s'
  end.

(** * Properties *)

(** ** Formatting *)

Lemma hex_digits_length (k : nat) (n : N) (acc : string) :
  String.length (hex_digits k n acc) = (k + String.length acc)%nat.
Proof.
  revert n acc. induction k as [|k IH]; intros n acc; simpl; [done|].
  rewrite IH. simpl. lia.
Qed.

Lemma format_hex_length (width : nat) (n : N) :
  String.length (format_hex width n) = Nat.max width (hex_length n).
Proof. unfold format_hex. rewrite hex_digits_length. simpl. lia. Qed.

Lemma format_span_id_nonempty (n : N) : String.eqb (format_span_id n) "" = false.
Proof.
  apply String.eqb_neq. intros E.
  pose proof (format_hex_length 16 n) as L.
  unfold format_span_id in E. rewrite E in L. simpl in L. lia.
Qed.

(** Distinct ids are formatted differently. *)
Lemma hex_digit_inj (d e : N) :
  (d < 16)%N → (e < 16)%N → hex_digit d = hex_digit e → d = e.
Proof.
  intros Hd He.
  assert (∀ x, (x < 16)%N → x ∈ (N.of_nat <$> seq 0 16)) as Hall.
  { intros x Hx. apply list_elem_of_fmap. exists (N.to_nat x).
    split; [lia|]. apply elem_of_seq. lia. }
  pose proof (Hall d Hd) as Hd'. pose proof (Hall e He) as He'.
  simpl in Hd', He'.
  repeat (apply elem_of_cons in Hd' as [->|Hd']);
    try (by apply elem_of_nil in Hd');
    repeat (apply elem_of_cons in He' as [->|He']);
    try (by apply elem_of_nil in He'); simpl; intros; congruence.
Qed.

Lemma hex_digits_inj (k : nat) (n m : N) (acc acc' : string) :
  hex_digits k n acc = hex_digits k m acc' →
  (n mod 16 ^ N.of_nat k = m mod 16 ^ N.of_nat k)%N ∧ acc = acc'.
Proof.
  revert n m acc acc'. induction k as [|k IH]; intros n m acc acc' H.
  - simpl in *. by rewrite !N.mod_1_r.
  - simpl in H. apply IH in H as [Hdiv Hacc].
    injection Hacc as Hdig ->. split; [|done].
    apply hex_digit_inj in Hdig; [|by apply N.mod_lt..].
    rewrite Nat2N.inj_succ, N.pow_succ_r'.
    rewrite !N.Div0.mod_mul_r. by rewrite Hdig, Hdiv.
Qed.

Lemma hex_length_bound (n : N) : (n < 16 ^ N.of_nat (hex_length n))%N.
Proof.
  destruct n as [|p]; [done|]. unfold hex_length.
  rewrite Nat2N.inj_succ, N2Nat.id.
  pose proof (N.log2_spec (N.pos p) eq_refl) as [_ Hlt].
  eapply N.lt_le_trans; [exact Hlt|].
  change 16%N with (2 ^ 4)%N. rewrite <- N.pow_mul_r.
  apply N.pow_le_mono_r; [done|].
  pose proof (N.mod_lt (N.log2 (N.pos p)) 4 ltac:(done)).
  pose proof (N.div_mod (N.log2 (N.pos p)) 4 ltac:(done)). lia.
Qed.

Lemma format_hex_inj (width : nat) (n m : N) :
  format_hex width n = format_hex width m → n = m.
Proof.
  intros H. pose proof (f_equal String.length H) as Hlen.
  rewrite !format_hex_length in Hlen. unfold format_hex in H.
  rewrite <- Hlen in H. apply hex_digits_inj in H as [Hmod _].
  assert (∀ x, (x < 16 ^ N.of_nat (Nat.max width (hex_length x)))%N) as Hb.
  { intros x. eapply N.lt_le_trans; [apply hex_length_bound|].
    apply N.pow_le_mono_r; [done|lia]. }
  rewrite N.mod_small in Hmod by apply Hb.
  rewrite N.mod_small in Hmod; [done|]. rewrite Hlen. apply Hb.
Qed.

(** ** The loop that copies the attributes *)

Lemma copy_data_empty (o : Sentry.span) : copy_data ∅ o = o.
Proof. destruct o. unfold copy_data. simpl. by rewrite (left_id_L ∅ (∪)). Qed.

Lemma copy_data_snoc l key val (o : Sentry.span) :
  copy_data (list_to_map (l ++ [(key, val)])) o
  = copy_data (list_to_map l) (Sentry.with_data key val o).
Proof.
  destruct o. unfold copy_data, Sentry.with_data. simpl. f_equal.
  rewrite list_to_map_app. simpl.
  rewrite <- (assoc_L (∪)). f_equal.
  by rewrite insert_empty, <- insert_union_singleton_l.
Qed.

Lemma update_update r f g st :
  (update r f ;; update r g) st = update r (g ∘ f) st.
Proof.
  unfold update, mbind, method_bind. simpl. f_equal. f_equal.
  apply list_alter_alter_eq.
Qed.

Lemma for_each_set_data r (l : list (string * attr_value)) st :
  for_each l (λ '(key, val), set_data r key val) st
  = update r (copy_data (list_to_map (reverse l))) st.
Proof.
  revert st. induction l as [|[key val] l IH]; intros st.
  - unfold update. simpl. unfold mret, method_ret. destruct st as [m objs].
    simpl. f_equal. f_equal. symmetry. apply list_alter_id, copy_data_empty.
  - simpl. unfold mbind, method_bind, set_data. simpl. rewrite IH.
    unfold update. simpl. f_equal. f_equal.
    rewrite list_alter_alter_eq. apply list_alter_ext; [|done].
    intros o _. simpl. rewrite reverse_cons. by rewrite copy_data_snoc.
Qed.

Lemma copy_attributes r (attrs : gmap string attr_value) st :
  for_each (map_to_list attrs) (λ '(key, val), set_data r key val) st
  = update r (copy_data attrs) st.
Proof.
  rewrite for_each_set_data. do 2 f_equal.
  rewrite <- (list_to_map_to_list attrs) at 2.
  apply list_to_map_proper.
  - rewrite fmap_reverse, reverse_Permutation. apply NoDup_fst_map_to_list.
  - apply reverse_Permutation.
Qed.

(** ** Attribute classification, branch by branch *)

Lemma update_span_http r otel_span st http_method :
  if_truthy (OTel.attributes otel_span !! SpanAttributes.HTTP_METHOD)
    = Some http_method →
  _update_span_with_otel_data r otel_span st
  = match http_description http_method (OTel.attributes otel_span) with
    | Some description =>
        update r
          (λ o, Sentry.with_description description
                  (Sentry.with_op ("http." +:+ py_str http_method)
                     (http_status_of (OTel.attributes otel_span)
                        (copy_data (OTel.attributes otel_span) o)))) st
    | None =>
        (Raises TypeError, (update r (copy_data (OTel.attributes otel_span)) st).2)
    end.
Proof.
  intros Hm. unfold _update_span_with_otel_data.
  unfold mbind at 1. unfold method_bind at 1. rewrite copy_attributes.
  unfold update at 1. cbv beta iota.
  rewrite Hm. unfold http_description, add_part, http_status_of.
  destruct (if_truthy (_ !! SpanAttributes.NET_PEER_NAME)) as [peer|];
    destruct (if_truthy (_ !! SpanAttributes.HTTP_TARGET)) as [target|];
    destruct (if_truthy (_ !! SpanAttributes.HTTP_STATUS_CODE)) as [code|];
    destruct http_method as [a| |]; simpl;
    unfold mbind, method_bind, mret, method_ret, iadd_str, raise,
      set_http_status, update; simpl;
    rewrite ?list_alter_alter_eq; reflexivity.
Qed.

Lemma update_span_db r otel_span st db_system :
  if_truthy (OTel.attributes otel_span !! SpanAttributes.HTTP_METHOD) = None →
  if_truthy (OTel.attributes otel_span !! SpanAttributes.DB_SYSTEM)
    = Some db_system →
  _update_span_with_otel_data r otel_span st
  = update r
      (λ o, Sentry.with_description
              (default (VStr (OTel.name otel_span))
                 (if_truthy (OTel.attributes otel_span
                               !! SpanAttributes.DB_STATEMENT)))
              (Sentry.with_op "db" (copy_data (OTel.attributes otel_span) o)))
      st.
Proof.
  intros Hm Hd. unfold _update_span_with_otel_data.
  unfold mbind at 1. unfold method_bind at 1. rewrite copy_attributes.
  unfold update at 1. cbv beta iota.
  rewrite Hm, Hd.
  destruct (if_truthy (_ !! SpanAttributes.DB_STATEMENT)) as [statement|];
    simpl; unfold mbind, method_bind, mret, method_ret, update; simpl;
    rewrite ?list_alter_alter_eq; reflexivity.
Qed.

Lemma update_span_default r otel_span st :
  if_truthy (OTel.attributes otel_span !! SpanAttributes.HTTP_METHOD) = None →
  if_truthy (OTel.attributes otel_span !! SpanAttributes.DB_SYSTEM) = None →
  _update_span_with_otel_data r otel_span st
  = update r
      (λ o, Sentry.with_description (VStr (OTel.name otel_span))
              (Sentry.with_op (OTel.name otel_span)
                 (copy_data (OTel.attributes otel_span) o)))
      st.
Proof.
  intros Hm Hd. unfold _update_span_with_otel_data.
  unfold mbind at 1. unfold method_bind at 1. rewrite copy_attributes.
  unfold update at 1. cbv beta iota.
  rewrite Hm, Hd.
  simpl; unfold mbind, method_bind, mret, method_ret, update; simpl;
    rewrite ?list_alter_alter_eq; reflexivity.
Qed.

(** ** Samples *)

Example format_span_id_sample :
  format_span_id 0x1234567890abcdef = "1234567890abcdef".
Proof. reflexivity. Qed.

Example format_trace_id_sample :
  format_trace_id 0x1234567890abcdef1234567890abcdef
  = "1234567890abcdef1234567890abcdef".
Proof. reflexivity. Qed.

Example format_span_id_padded : format_span_id 0xabc = "0000000000000abc".
Proof. reflexivity. Qed.

Example root_started_keys :
  (map_to_list (otel_span_map root_started)) = [("abcdef1234567890", 0)].
Proof. vm_compute. reflexivity. Qed.

Example child_started_created :
  Sentry.created <$> objects (child_started ∅) !! 1
  = Some (Sentry.start_child 0
            (Sentry.ChildKwargs "1234567890abcdef" "Sample OTel Span"
               (fromtimestamp_1e9 2000000000) "sentry")).
Proof. vm_compute. reflexivity. Qed.

(** ** The end of a span that is not tracked *)

(** C1: for a span whose id is absent from the dictionary, [on_end] is not a
    no-op: [otel_span_map.pop(span_id)] has no default, so the call raises
    [KeyError] (before the test [if not sentry_span] is reached); the
    dictionary and the objects are left as they were. *)
Theorem on_end_untracked_raises (pf : platform) (otel_span : OTel.span)
  (st : processor) :
  tracked st otel_span = None →
  on_end pf otel_span st = (Raises (KeyError (key_of otel_span)), st).
Proof.
  unfold tracked, key_of, on_end. intros Hnone.
  unfold mbind, method_bind, map_pop. by rewrite Hnone.
Qed.

(** The second end of a span that started and ended once, and the end of a
    span that never started. *)
Lemma on_end_untracked_raises_witness :
  let ended :=
    replay sample_platform [End root_span; Start true root_span no_context] in
  (tracked ended root_span = None ∧
   on_end sample_platform root_span ended
   = (Raises (KeyError "abcdef1234567890"), ended)) ∧
  (tracked (Processor ∅ []) root_span = None ∧
   on_end sample_platform root_span (Processor ∅ [])
   = (Raises (KeyError "abcdef1234567890"), Processor ∅ [])).
Proof.
  split; (split; [vm_compute; reflexivity|]).
  - apply (on_end_untracked_raises sample_platform root_span).
    vm_compute. reflexivity.
  - apply (on_end_untracked_raises sample_platform root_span).
    vm_compute. reflexivity.
Defined.

(** ** Starting without a session *)

(** C9: without an active session ([Hub.current] is false) [on_start]
    returns at once: the dictionary and the objects are unchanged. *)
Theorem on_start_without_hub (pf : platform) (otel_span : OTel.span)
  (ctx : parent_context) (st : processor) :
  on_start pf false otel_span ctx st = (Returns (), st).
Proof. reflexivity. Qed.

(** ** Starting a span *)

(** What [on_start] does under an active session, by the parent found and
    by whether the start time can be converted. *)
Lemma on_start_with_hub (pf : platform) (otel_span : OTel.span)
  (ctx : parent_context) (st : processor) :
  on_start pf true otel_span ctx st
  = match pf (OTel.start_time otel_span) with
    | Some e => (Raises (TimeError e), st)
    | None =>
        let td := _get_trace_data otel_span ctx in
        let new :=
          match tracked_parent st otel_span with
          | Some parent =>
              Sentry.new_child parent
                (Sentry.ChildKwargs (td_span_id td) (OTel.name otel_span)
                   (fromtimestamp_1e9 (OTel.start_time otel_span)) "sentry")
          | None =>
              Sentry.new_transaction
                (Sentry.TransactionKwargs (OTel.name otel_span) (td_span_id td)
                   (td_parent_span_id td) (td_trace_id td) (td_baggage td)
                   (fromtimestamp_1e9 (OTel.start_time otel_span)) "sentry")
          end in
        (Returns (),
         Processor (<[td_span_id td := length (objects st)]> (otel_span_map st))
           (objects st ++ [new]))
    end.
Proof.
  unfold on_start, tracked_parent, _get_trace_data, fromtimestamp. simpl.
  destruct (OTel.parent otel_span) as [parent|]; simpl.
  - rewrite format_span_id_nonempty.
    unfold mbind, method_bind, map_get. simpl.
    destruct (otel_span_map st !! _);
      by destruct (pf (OTel.start_time otel_span)).
  - unfold mbind, method_bind. simpl.
    by destruct (pf (OTel.start_time otel_span)).
Qed.

(** C3, as stated, fails: a span without a parent whose start time is
    beyond the year 9999 gets no transaction, since
    [datetime.fromtimestamp] raises when the arguments of
    [start_transaction] are evaluated; nothing is made or stored. *)
Lemma on_start_late_root_raises :
  tracked_parent (Processor ∅ []) (late_span None) = None
  ∧ OTel.start_time (late_span None) = (10 ^ 21)%Z
  ∧ on_start sample_platform true (late_span None) no_context (Processor ∅ [])
    = (Raises (TimeError ValueError), Processor ∅ []).
Proof. vm_compute. repeat split. Qed.

(** C3, amended: when the parent of a span is not found in the dictionary
    (the span has no parent, or its parent is not tracked) and the start
    time can be converted, [on_start] under an active session makes a
    transaction, not a child span, from the span's name, formatted id,
    formatted parent id (if any), formatted trace id, the baggage of the
    context and the converted start time; it is stored under the span's id.
    Without a parent and without baggage in the context, parent id and
    baggage are absent. *)
Theorem on_start_untracked_parent_starts_transaction (pf : platform)
  (otel_span : OTel.span) (ctx : parent_context) (st : processor) :
  tracked_parent st otel_span = None →
  pf (OTel.start_time otel_span) = None →
  let kwargs :=
    {| Sentry.tx_name := OTel.name otel_span;
       Sentry.tx_span_id := format_span_id (OTel.span_id (OTel.context otel_span));
       Sentry.tx_parent_span_id :=
         (λ parent, format_span_id (OTel.span_id parent)) <$> OTel.parent otel_span;
       Sentry.tx_trace_id := format_trace_id (OTel.trace_id (OTel.context otel_span));
       Sentry.tx_baggage := sentry_baggage ctx;
       Sentry.tx_start_timestamp := fromtimestamp_1e9 (OTel.start_time otel_span);
       Sentry.tx_instrumenter := "sentry" |} in
  on_start pf true otel_span ctx st
  = (Returns (),
     Processor (<[key_of otel_span := length (objects st)]> (otel_span_map st))
       (objects st ++ [Sentry.new_transaction kwargs]))
  ∧ Sentry.is_transaction (Sentry.new_transaction kwargs) = true
  ∧ (OTel.parent otel_span = None → sentry_baggage ctx = None →
     Sentry.tx_parent_span_id kwargs = None ∧ Sentry.tx_baggage kwargs = None).
Proof.
  intros Hnone Htime kwargs. split; [|split].
  - rewrite on_start_with_hub, Htime. simpl. rewrite Hnone.
    unfold key_of, kwargs. by destruct (OTel.parent otel_span).
  - reflexivity.
  - intros Hp Hb. unfold kwargs. simpl. by rewrite Hp, Hb.
Qed.

(** The span [1234567890abcdef] without a parent, in the empty state and
    without continuation data. *)
Lemma on_start_untracked_parent_starts_transaction_witness :
  let otel_span := sample_span None ∅ in
  let kwargs :=
    Sentry.TransactionKwargs "Sample OTel Span" "1234567890abcdef" None
      "1234567890abcdef1234567890abcdef" None (fromtimestamp_1e9 2000000000)
      "sentry" in
  tracked_parent (Processor ∅ []) otel_span = None ∧
  sample_platform (OTel.start_time otel_span) = None ∧
  on_start sample_platform true otel_span no_context (Processor ∅ [])
  = (Returns (),
     Processor {[ "1234567890abcdef" := 0 ]} [Sentry.new_transaction kwargs]).
Proof.
  split; [reflexivity|]. split; [vm_compute; reflexivity|].
  exact (proj1 (on_start_untracked_parent_starts_transaction sample_platform
                  (sample_span None ∅) no_context (Processor ∅ [])
                  eq_refl eq_refl)).
Defined.

(** C4, as stated, fails: a span whose parent is tracked and whose start
    time is beyond the year 9999 gets no child span, since
    [datetime.fromtimestamp] raises when the arguments of [start_child]
    are evaluated; the dictionary keeps the parent's id only. *)
Lemma on_start_late_child_raises :
  let otel_span := late_span (Some (OTel.context root_span)) in
  tracked_parent root_started otel_span = Some 0
  ∧ on_start sample_platform true otel_span no_context root_started
    = (Raises (TimeError ValueError), root_started)
  ∧ otel_span_map root_started !! key_of otel_span = None.
Proof. vm_compute. repeat split. Qed.

(** C4, amended: when the parent of a span is in the dictionary and the
    start time can be converted, [on_start] under an active session calls
    [start_child] on the very object the dictionary holds for the parent,
    with the span's formatted id, its name as description and the converted
    start time; the new object is stored under the span's id, the objects
    there were are untouched, and the dictionary then has both the parent's
    id and the span's id. *)
Theorem on_start_tracked_parent_starts_child (pf : platform)
  (otel_span : OTel.span) (ctx : parent_context) (st : processor)
  (parent : OTel.span_context) (sentry_parent_span : Sentry.ref) :
  OTel.parent otel_span = Some parent →
  otel_span_map st !! format_span_id (OTel.span_id parent)
    = Some sentry_parent_span →
  pf (OTel.start_time otel_span) = None →
  let kwargs :=
    {| Sentry.ch_span_id := format_span_id (OTel.span_id (OTel.context otel_span));
       Sentry.ch_description := OTel.name otel_span;
       Sentry.ch_start_timestamp := fromtimestamp_1e9 (OTel.start_time otel_span);
       Sentry.ch_instrumenter := "sentry" |} in
  let st' :=
    Processor (<[key_of otel_span := length (objects st)]> (otel_span_map st))
      (objects st ++ [Sentry.new_child sentry_parent_span kwargs]) in
  on_start pf true otel_span ctx st = (Returns (), st')
  ∧ Sentry.is_transaction (Sentry.new_child sentry_parent_span kwargs) = false
  ∧ otel_span_map st' !! key_of otel_span = Some (length (objects st))
  ∧ objects st' !! length (objects st)
    = Some (Sentry.new_child sentry_parent_span kwargs)
  ∧ (∀ r o, objects st !! r = Some o → objects st' !! r = Some o)
  ∧ format_span_id (OTel.span_id parent) ∈ dom (otel_span_map st')
  ∧ key_of otel_span ∈ dom (otel_span_map st').
Proof.
  intros Hp Hr Htime kwargs st'.
  assert (tracked_parent st otel_span = Some sentry_parent_span) as Ht.
  { unfold tracked_parent. by rewrite Hp. }
  split; [|split; [|split; [|split; [|split; [|split]]]]].
  - rewrite on_start_with_hub, Htime. simpl. by rewrite Ht.
  - reflexivity.
  - simpl. apply lookup_insert_eq.
  - simpl. by rewrite lookup_app_r, Nat.sub_diag.
  - intros r o Ho. simpl. by apply lookup_app_l_Some.
  - simpl. rewrite dom_insert_L. apply elem_of_union_r, elem_of_dom. eauto.
  - simpl. rewrite dom_insert_L. apply elem_of_union_l, elem_of_singleton.
    reflexivity.
Qed.

(** The span [1234567890abcdef] starts while its parent [abcdef1234567890]
    is tracked. *)
Lemma on_start_tracked_parent_starts_child_witness :
  let otel_span := child_span ∅ in
  let kwargs :=
    Sentry.ChildKwargs "1234567890abcdef" "Sample OTel Span"
      (fromtimestamp_1e9 2000000000) "sentry" in
  otel_span_map root_started !! "abcdef1234567890" = Some 0 ∧
  sample_platform (OTel.start_time otel_span) = None ∧
  (on_start sample_platform true otel_span no_context root_started).1
  = Returns () ∧
  objects (on_start sample_platform true otel_span no_context root_started).2
    !! 1
  = Some (Sentry.new_child 0 kwargs) ∧
  "abcdef1234567890"
    ∈ dom (otel_span_map
             (on_start sample_platform true otel_span no_context root_started).2) ∧
  "1234567890abcdef"
    ∈ dom (otel_span_map
             (on_start sample_platform true otel_span no_context root_started).2).
Proof.
  pose proof (on_start_tracked_parent_starts_child sample_platform
                (child_span ∅) no_context root_started (OTel.context root_span)
                0 eq_refl eq_refl eq_refl)
    as (Hrun & _ & _ & Hobj & _ & Hparent & Hchild).
  intros otel_span kwargs. subst otel_span kwargs. rewrite Hrun.
  split; [reflexivity|]. split; [vm_compute; reflexivity|].
  split; [reflexivity|].
  split; [exact Hobj|]. split; [exact Hparent|exact Hchild].
Defined.

(** C10: the parent sampling decision of the context is read by
    [_get_trace_data] and used nowhere: two contexts that differ only in
    the third component of the value under the sentry-trace key give the
    same outcome and the same state, for every span and state. *)
Theorem on_start_ignores_parent_sampled (pf : platform) (hub : bool)
  (otel_span : OTel.span) (st : processor) (trace_id parent_span_id : string)
  (sampled1 sampled2 : option bool) (baggage : option string) :
  let ctx1 := ParentContext (Some (trace_id, parent_span_id, sampled1)) baggage in
  let ctx2 := ParentContext (Some (trace_id, parent_span_id, sampled2)) baggage in
  td_parent_sampled (_get_trace_data otel_span ctx1) = sampled1
  ∧ td_parent_sampled (_get_trace_data otel_span ctx2) = sampled2
  ∧ on_start pf hub otel_span ctx1 st = on_start pf hub otel_span ctx2 st.
Proof.
  intros ctx1 ctx2. split; [reflexivity|]. split; [reflexivity|].
  destruct hub; [|reflexivity].
  by rewrite !on_start_with_hub.
Qed.

(** ** Ending a span *)

Lemma alter_at (f : Sentry.span → Sentry.span) (r : Sentry.ref)
  (objs : list Sentry.span) (o : Sentry.span) :
  objs !! r = Some o → alter f r objs = <[r := f o]> objs.
Proof.
  intros Ho. rewrite list_insert_alter. apply list_alter_ext; [|done].
  intros o' Ho'. simpl. congruence.
Qed.

(** What [on_end] does for a tracked span, by the kind of its object and
    by whether the end time can be converted. *)
Lemma on_end_tracked (pf : platform) (otel_span : OTel.span) (st : processor)
  (r : Sentry.ref) (o : Sentry.span) :
  tracked st otel_span = Some r →
  objects st !! r = Some o →
  on_end pf otel_span st
  = let popped :=
      Processor (delete (key_of otel_span) (otel_span_map st))
        (alter (Sentry.with_op (OTel.name otel_span)) r (objects st)) in
    if Sentry.is_transaction o then
      match pf (OTel.end_time otel_span) with
      | None =>
          update r
            (λ o, Sentry.with_timestamp
                    (fromtimestamp_1e9 (OTel.end_time otel_span))
                    (Sentry.with_context OPEN_TELEMETRY_CONTEXT
                       (_get_otel_context otel_span)
                       (Sentry.with_name (OTel.name otel_span) o)))
            popped
      | Some e =>
          (Raises (TimeError e),
           (update r
              (λ o, Sentry.with_context OPEN_TELEMETRY_CONTEXT
                      (_get_otel_context otel_span)
                      (Sentry.with_name (OTel.name otel_span) o))
              popped).2)
      end
    else
      match _update_span_with_otel_data r otel_span popped with
      | (Returns _, st') =>
          match pf (OTel.end_time otel_span) with
          | None => finish r (fromtimestamp_1e9 (OTel.end_time otel_span)) st'
          | Some e => (Raises (TimeError e), st')
          end
      | (Raises e, st') => (Raises e, st')
      end.
Proof.
  unfold tracked, key_of. intros Ht Ho. unfold on_end.
  unfold mbind at 1. unfold method_bind at 1. unfold map_pop at 1.
  rewrite Ht. cbv beta iota.
  unfold mbind at 1. unfold method_bind at 1. unfold update at 1.
  cbv beta iota.
  unfold mbind at 1. unfold method_bind at 1. unfold read at 1.
  cbv beta iota. simpl objects at 1.
  assert (alter (Sentry.with_op (OTel.name otel_span)) r (objects st) !!! r
          = Sentry.with_op (OTel.name otel_span) o) as ->.
  { apply list_lookup_total_correct. by rewrite list_lookup_alter_eq, Ho. }
  change (Sentry.is_transaction (Sentry.with_op (OTel.name otel_span) o))
    with (Sentry.is_transaction o).
  destruct (Sentry.is_transaction o).
  - unfold mbind, method_bind, set_context, finish, update, fromtimestamp.
    simpl. destruct (pf (OTel.end_time otel_span)); simpl;
      by rewrite !list_alter_alter_eq.
  - unfold mbind at 1. unfold method_bind at 1. simpl otel_span_map.
    simpl objects.
    destruct (_update_span_with_otel_data _ _ _) as [[[]|e] st']; [|done].
    unfold mbind, method_bind, fromtimestamp.
    by destruct (pf (OTel.end_time otel_span)).
Qed.

(** Classification touches the objects only. *)
Lemma update_span_keeps_map (r : Sentry.ref) (otel_span : OTel.span)
  (st : processor) :
  otel_span_map (_update_span_with_otel_data r otel_span st).2
  = otel_span_map st.
Proof.
  destruct (if_truthy (OTel.attributes otel_span !! SpanAttributes.HTTP_METHOD))
    as [m|] eqn:Hm.
  - rewrite (update_span_http _ _ _ _ Hm).
    by destruct (http_description _ _).
  - destruct (if_truthy (OTel.attributes otel_span !! SpanAttributes.DB_SYSTEM))
      as [d|] eqn:Hd.
    + by rewrite (update_span_db _ _ _ _ Hm Hd).
    + by rewrite (update_span_default _ _ _ Hm Hd).
Qed.

(** When the span is tracked, [on_end] removes its entry, whether the rest
    of the call returns or raises. *)
Lemma on_end_tracked_map (pf : platform) (otel_span : OTel.span)
  (st : processor) (r : Sentry.ref) :
  tracked st otel_span = Some r →
  otel_span_map (on_end pf otel_span st).2
  = delete (key_of otel_span) (otel_span_map st).
Proof.
  unfold tracked, key_of. intros Ht. unfold on_end.
  unfold mbind at 1. unfold method_bind at 1. unfold map_pop at 1.
  rewrite Ht. cbv beta iota.
  unfold mbind at 1. unfold method_bind at 1. unfold update at 1.
  cbv beta iota.
  unfold mbind at 1. unfold method_bind at 1. unfold read at 1.
  cbv beta iota.
  destruct (Sentry.is_transaction _).
  - unfold mbind, method_bind, set_context, finish, update, fromtimestamp.
    simpl. by destruct (pf (OTel.end_time otel_span)).
  - unfold mbind at 1. unfold method_bind at 1.
    match goal with
    | |- context [_update_span_with_otel_data ?r ?s ?p] =>
        pose proof (update_span_keeps_map r s p) as Hk;
        destruct (_update_span_with_otel_data r s p) as [[[]|e] st']
    end; simpl in *; [|exact Hk].
    unfold mbind, method_bind, fromtimestamp.
    by destruct (pf (OTel.end_time otel_span)).
Qed.

Lemma on_end_map (pf : platform) (otel_span : OTel.span) (st : processor) :
  otel_span_map (on_end pf otel_span st).2
  = delete (key_of otel_span) (otel_span_map st).
Proof.
  destruct (tracked st otel_span) as [r|] eqn:Ht.
  - by apply on_end_tracked_map with r.
  - unfold tracked, key_of in Ht. unfold on_end, mbind, method_bind, map_pop.
    rewrite Ht. simpl. symmetry. by apply delete_id.
Qed.

Lemma on_start_map (pf : platform) (hub : bool) (otel_span : OTel.span)
  (ctx : parent_context) (st : processor) :
  otel_span_map (on_start pf hub otel_span ctx st).2
  = if hub && bool_decide (pf (OTel.start_time otel_span) = None)
    then <[key_of otel_span := length (objects st)]> (otel_span_map st)
    else otel_span_map st.
Proof.
  destruct hub; [|reflexivity]. rewrite on_start_with_hub. simpl.
  by destruct (pf (OTel.start_time otel_span)).
Qed.

(** The dictionary holds the ids that are tracked after the history. *)
Lemma replay_dom (pf : platform) (history : list event) (id : string) :
  id ∈ dom (otel_span_map (replay pf history))
  ↔ tracked_live pf history id = true.
Proof.
  induction history as [|[hub otel_span ctx|otel_span] earlier IH]; simpl.
  - rewrite dom_empty_L. split; [set_solver|done].
  - rewrite on_start_map.
    destruct (hub && bool_decide (pf (OTel.start_time otel_span) = None));
      simpl; [|exact IH].
    rewrite dom_insert_L, elem_of_union, elem_of_singleton.
    case_bool_decide as Hk.
    + split; [done|]. intros _. by left.
    + rewrite <- IH. split; [|by right]. intros [E|Hin]; [|done].
      by destruct Hk.
  - rewrite on_end_map, dom_delete_L, elem_of_difference, elem_of_singleton.
    case_bool_decide as Hk.
    + split; [|done]. intros [_ Hne]. by destruct Hne.
    + rewrite <- IH. split; [by intros [Hin _]|]. intros Hin.
      split; [done|]. intros E. by destruct Hk.
Qed.

(** When every start time of the history can be converted, the tracked ids
    are the ids started under a session and not ended since. *)
Lemma tracked_live_convertible (pf : platform) (history : list event)
  (id : string) :
  starts_convertible pf history = true →
  tracked_live pf history id = live history id.
Proof.
  induction history as [|[hub otel_span ctx|otel_span] earlier IH]; simpl;
    [done| |].
  - intros [Hc Hrest]%andb_prop. rewrite (IH Hrest).
    destruct hub; simpl in *; [|done]. by rewrite Hc.
  - intros Hrest. by rewrite (IH Hrest).
Qed.

(** ** The dictionary of live spans *)

(** C7, as stated, fails: a span that starts under an active session with a
    start time beyond the year 9999 is started and not ended, but
    [on_start] raises before the insertion and its id is not in the
    dictionary. *)
Lemma late_start_live_but_untracked :
  let history := [Start true (late_span None) no_context] in
  live history "1234567890abcdef" = true
  ∧ otel_span_map (replay sample_platform history) !! "1234567890abcdef" = None
  ∧ on_start sample_platform true (late_span None) no_context (Processor ∅ [])
    = (Raises (TimeError ValueError), Processor ∅ []).
Proof. vm_compute. repeat split. Qed.

(** C7, amended: after any history of notifications in which the start time
    of every span started under an active session can be converted, the
    dictionary holds exactly the ids started under an active session and
    not ended since (in general, it holds the ids whose latest start under
    a session had a start time that can be converted and has not ended
    since).  A start under an active session with such a start time stores
    the new object under the span's id; an end whose id is in the
    dictionary removes that entry and no other, so the id is gone and the
    size is one less.  The key of a span stands for its id: spans with the
    same key have the same id. *)
Theorem live_mapping_tracks_started_spans (pf : platform)
  (history : list event) (st : processor) (otel_span : OTel.span)
  (ctx : parent_context) :
  (starts_convertible pf history = true →
   ∀ id, id ∈ dom (otel_span_map (replay pf history))
         ↔ live history id = true)
  ∧ (∀ id, id ∈ dom (otel_span_map (replay pf history))
           ↔ tracked_live pf history id = true)
  ∧ (pf (OTel.start_time otel_span) = None →
     (otel_span_map (on_start pf true otel_span ctx st).2
      = <[key_of otel_span := length (objects st)]> (otel_span_map st))
     ∧ is_Some (objects (on_start pf true otel_span ctx st).2
                  !! length (objects st)))
  ∧ (key_of otel_span ∈ dom (otel_span_map st) →
     let st' := (on_end pf otel_span st).2 in
     (otel_span_map st' = delete (key_of otel_span) (otel_span_map st))
     ∧ (key_of otel_span ∉ dom (otel_span_map st'))
     ∧ (∀ id, id ≠ key_of otel_span →
          otel_span_map st' !! id = otel_span_map st !! id)
     ∧ size (otel_span_map st) = S (size (otel_span_map st')))
  ∧ (∀ other, key_of other = key_of otel_span →
       OTel.span_id (OTel.context other)
       = OTel.span_id (OTel.context otel_span)).
Proof.
  split; [|split; [|split; [|split]]];
    [| | | |intros other; apply format_hex_inj].
  - intros Hc id. rewrite replay_dom. by rewrite tracked_live_convertible.
  - intros id. apply replay_dom.
  - intros Htime. split.
    + rewrite on_start_map. simpl. by rewrite Htime.
    + rewrite on_start_with_hub, Htime. simpl.
      rewrite lookup_app_r, Nat.sub_diag by done. simpl. eauto.
  - intros Hin st'. subst st'. rewrite on_end_map.
    apply elem_of_dom in Hin as [r Hr].
    split; [done|]. split; [|split].
    + rewrite dom_delete_L, elem_of_difference, elem_of_singleton.
      intros [_ Hne]. by destruct Hne.
    + intros id Hne. by apply lookup_delete_ne.
    + rewrite map_size_delete, Hr.
      assert (size (otel_span_map st) ≠ 0); [|lia].
      intros Hz. apply map_size_empty_iff in Hz. rewrite Hz in Hr.
      by rewrite lookup_empty in Hr.
Qed.

(** A root and its child have started; the child ends. *)
Lemma live_mapping_tracks_started_spans_witness :
  let history :=
    [Start true (child_span ∅) no_context; Start true root_span no_context] in
  let st := child_started ∅ in
  starts_convertible sample_platform history = true
  ∧ "1234567890abcdef" ∈ dom (otel_span_map st)
  ∧ size (otel_span_map st) = 2
  ∧ size (otel_span_map (on_end sample_platform (child_span ∅) st).2) = 1
  ∧ "1234567890abcdef"
      ∉ dom (otel_span_map (on_end sample_platform (child_span ∅) st).2).
Proof.
  intros history st.
  pose proof (live_mapping_tracks_started_spans sample_platform history
                st (child_span ∅) no_context) as (Hlive & _ & _ & Hend & _).
  assert (starts_convertible sample_platform history = true) as Hc
    by (vm_compute; reflexivity).
  assert ("1234567890abcdef" ∈ dom (otel_span_map st)) as Hin.
  { apply (Hlive Hc). vm_compute. reflexivity. }
  assert (size (otel_span_map st) = 2) as Hsize by (vm_compute; reflexivity).
  destruct (Hend Hin) as (_ & Hgone & _ & Hless).
  split; [exact Hc|]. split; [exact Hin|]. split; [exact Hsize|].
  split; [|exact Hgone]. apply eq_add_S.
  transitivity (size (otel_span_map st)); [symmetry; exact Hless|exact Hsize].
Defined.

(** ** The end of a transaction *)

Lemma get_otel_context_lookup (otel_span : OTel.span) :
  _get_otel_context otel_span !! "attributes"
  = (if decide (OTel.attributes otel_span = ∅) then None
     else Some (OTel.attributes otel_span))
  ∧ _get_otel_context otel_span !! "resource"
    = (if decide (OTel.resource_attributes otel_span = ∅) then None
       else Some (OTel.resource_attributes otel_span))
  ∧ (∀ key, key ≠ "attributes" → key ≠ "resource" →
       _get_otel_context otel_span !! key = None).
Proof.
  unfold _get_otel_context.
  destruct (decide (OTel.attributes otel_span = ∅));
    destruct (decide (OTel.resource_attributes otel_span = ∅));
    (split; [|split]); try (intros key Ha Hr); try (by simplify_map_eq);
    by rewrite ?lookup_insert_ne, lookup_empty by (intros ?; subst; done).
Qed.

(** C8, as stated, fails: for a tracked transaction whose span has an end
    time beyond the range of [time_t], [on_end] sets name and context block
    and then raises when the argument of [finish] is evaluated: the
    transaction is not finished. *)
Lemma on_end_late_transaction_raises :
  tracked root_started late_root_span = Some 0
  ∧ Sentry.is_transaction <$> objects root_started !! 0 = Some true
  ∧ OTel.end_time late_root_span = (10 ^ 30)%Z
  ∧ (on_end sample_platform late_root_span root_started).1
    = Raises (TimeError OverflowError)
  ∧ (λ o, (Sentry.name o, Sentry.timestamp o))
      <$> objects (on_end sample_platform late_root_span root_started).2 !! 0
    = Some (Some "Sample OTel Root", None).
Proof. vm_compute. repeat split. Qed.

(** C8, amended: when the object tracked for an ended span is a transaction
    and the end time can be converted, [on_end] returns, sets its name (and
    operation) to the span's name, attaches under the key ["otel"] a block
    with the span's attributes when they are not empty and its resource
    attributes when they are not empty and nothing else, leaves
    description, data and HTTP status as they were (no classification), and
    finishes it with the converted end time. *)
Theorem on_end_transaction (pf : platform) (otel_span : OTel.span)
  (st : processor) (r : Sentry.ref) (o : Sentry.span) :
  tracked st otel_span = Some r →
  objects st !! r = Some o →
  Sentry.is_transaction o = true →
  pf (OTel.end_time otel_span) = None →
  let block := _get_otel_context otel_span in
  let o' :=
    {| Sentry.created := Sentry.created o;
       Sentry.op := Some (OTel.name otel_span);
       Sentry.name := Some (OTel.name otel_span);
       Sentry.description := Sentry.description o;
       Sentry.data := Sentry.data o;
       Sentry.http_status := Sentry.http_status o;
       Sentry.contexts := <["otel" := block]> (Sentry.contexts o);
       Sentry.timestamp := Some (fromtimestamp_1e9 (OTel.end_time otel_span)) |} in
  on_end pf otel_span st
  = (Returns (),
     Processor (delete (key_of otel_span) (otel_span_map st))
       (<[r := o']> (objects st)))
  ∧ block !! "attributes"
    = (if decide (OTel.attributes otel_span = ∅) then None
       else Some (OTel.attributes otel_span))
  ∧ block !! "resource"
    = (if decide (OTel.resource_attributes otel_span = ∅) then None
       else Some (OTel.resource_attributes otel_span))
  ∧ (∀ key, key ≠ "attributes" → key ≠ "resource" → block !! key = None).
Proof.
  intros Ht Ho Htx Htime block o'. split; [|apply get_otel_context_lookup].
  rewrite (on_end_tracked _ _ _ _ _ Ht Ho), Htx, Htime. unfold update. simpl.
  rewrite list_alter_alter_eq, (alter_at _ _ _ _ Ho). reflexivity.
Qed.

(** The root span, started as a transaction, ends. *)
Lemma on_end_transaction_witness :
  tracked root_started root_span = Some 0
  ∧ Sentry.is_transaction <$> objects root_started !! 0 = Some true
  ∧ sample_platform (OTel.end_time root_span) = None
  ∧ (on_end sample_platform root_span root_started).1 = Returns ()
  ∧ (λ o, (Sentry.name o, Sentry.contexts o !! "otel", Sentry.description o,
           Sentry.timestamp o))
      <$> objects (on_end sample_platform root_span root_started).2 !! 0
    = Some (Some "Sample OTel Root",
            Some {[ "attributes" := {[ "foo" := VStr "bar" ]};
                    "resource" := {[ "baz" := VStr "qux" ]} ]},
            None, Some (fromtimestamp_1e9 5000000000)).
Proof.
  assert (tracked root_started root_span = Some 0) as Ht
    by (vm_compute; reflexivity).
  assert (objects root_started !! 0
          = Some (Sentry.new_transaction
                    (Sentry.TransactionKwargs "Sample OTel Root"
                       "abcdef1234567890" None
                       "1234567890abcdef1234567890abcdef" None
                       (fromtimestamp_1e9 1000000000) "sentry"))) as Ho
    by (vm_compute; reflexivity).
  assert (sample_platform (OTel.end_time root_span) = None) as Htime
    by (vm_compute; reflexivity).
  pose proof (on_end_transaction sample_platform root_span root_started 0 _
                Ht Ho eq_refl Htime) as (Hrun & _).
  split; [exact Ht|]. split; [by rewrite Ho|]. split; [exact Htime|].
  rewrite Hrun. split; [reflexivity|].
  vm_compute. reflexivity.
Defined.

(** ** Attribute classification *)

(** C2: for a span with the attributes http.method "GET", net.peer.name
    "example.com", http.target "/" and http.status_code 429, classification
    returns, sets the description to "GET example.com /" and hands the
    status code 429 to [set_http_status]; the operation it sets is
    "http.GET", the method as it is written, and not the lowercased
    "http.get". *)
Theorem http_classification_keeps_method_case (r : Sentry.ref)
  (otel_span : OTel.span) (st : processor) (o : Sentry.span) :
  OTel.attributes otel_span = http_attributes →
  objects st !! r = Some o →
  ∃ o', _update_span_with_otel_data r otel_span st
        = (Returns (), Processor (otel_span_map st) (<[r := o']> (objects st)))
    ∧ Sentry.op o' = Some "http.GET"
    ∧ Sentry.op o' ≠ Some "http.get"
    ∧ Sentry.description o' = Some (VStr "GET example.com /")
    ∧ Sentry.http_status o' = Some (VInt 429).
Proof.
  intros Hattrs Ho.
  assert (if_truthy (OTel.attributes otel_span !! SpanAttributes.HTTP_METHOD)
          = Some (VStr "GET")) as Hm by (rewrite Hattrs; vm_compute; reflexivity).
  rewrite (update_span_http _ _ _ _ Hm).
  assert (http_description (VStr "GET") (OTel.attributes otel_span)
          = Some (VStr "GET example.com /")) as ->
    by (rewrite Hattrs; vm_compute; reflexivity).
  unfold update. rewrite (alter_at _ _ _ _ Ho).
  eexists. split; [reflexivity|]. unfold http_status_of.
  assert (if_truthy (OTel.attributes otel_span !! SpanAttributes.HTTP_STATUS_CODE)
          = Some (VInt 429)) as -> by (rewrite Hattrs; vm_compute; reflexivity).
  simpl. repeat split. discriminate.
Qed.

(** The child of a started root carries these attributes. *)
Lemma http_classification_keeps_method_case_witness :
  let otel_span := child_span http_attributes in
  let st := child_started http_attributes in
  Sentry.is_transaction <$> objects st !! 1 = Some false
  ∧ (_update_span_with_otel_data 1 otel_span st).1 = Returns ()
  ∧ (λ o, (Sentry.op o, Sentry.description o, Sentry.http_status o))
      <$> objects (_update_span_with_otel_data 1 otel_span st).2 !! 1
    = Some (Some "http.GET", Some (VStr "GET example.com /"), Some (VInt 429)).
Proof.
  intros otel_span st.
  assert (objects st !! 1
          = Some (Sentry.new_child 0
                    (Sentry.ChildKwargs "1234567890abcdef" "Sample OTel Span"
                       (fromtimestamp_1e9 2000000000) "sentry"))) as Ho
    by (vm_compute; reflexivity).
  destruct (http_classification_keeps_method_case 1 otel_span st _ eq_refl Ho)
    as (o' & Hrun & Hop & _ & Hdescription & Hstatus).
  split; [by rewrite Ho|]. rewrite Hrun. split; [reflexivity|].
  simpl. rewrite list_lookup_insert_eq by (apply lookup_lt_Some in Ho; exact Ho).
  simpl. by rewrite Hop, Hdescription, Hstatus.
Defined.

(** C6: for a span with the attributes db.system "postgresql" and
    db.statement "SELECT * FROM t", classification returns and sets the
    operation to "db" and the description to the statement as it is. *)
Theorem db_classification (r : Sentry.ref) (otel_span : OTel.span)
  (st : processor) (o : Sentry.span) :
  OTel.attributes otel_span = db_attributes →
  objects st !! r = Some o →
  ∃ o', _update_span_with_otel_data r otel_span st
        = (Returns (), Processor (otel_span_map st) (<[r := o']> (objects st)))
    ∧ Sentry.op o' = Some "db"
    ∧ Sentry.description o' = Some (VStr "SELECT * FROM t").
Proof.
  intros Hattrs Ho.
  assert (if_truthy (OTel.attributes otel_span !! SpanAttributes.HTTP_METHOD)
          = None) as Hm by (rewrite Hattrs; vm_compute; reflexivity).
  assert (if_truthy (OTel.attributes otel_span !! SpanAttributes.DB_SYSTEM)
          = Some (VStr "postgresql")) as Hd
    by (rewrite Hattrs; vm_compute; reflexivity).
  rewrite (update_span_db _ _ _ _ Hm Hd).
  assert (if_truthy (OTel.attributes otel_span !! SpanAttributes.DB_STATEMENT)
          = Some (VStr "SELECT * FROM t")) as ->
    by (rewrite Hattrs; vm_compute; reflexivity).
  unfold update. rewrite (alter_at _ _ _ _ Ho).
  eexists. split; [reflexivity|]. simpl. by split.
Qed.

(** The child of a started root carries these attributes. *)
Lemma db_classification_witness :
  let otel_span := child_span db_attributes in
  let st := child_started db_attributes in
  Sentry.is_transaction <$> objects st !! 1 = Some false
  ∧ (_update_span_with_otel_data 1 otel_span st).1 = Returns ()
  ∧ (λ o, (Sentry.op o, Sentry.description o))
      <$> objects (_update_span_with_otel_data 1 otel_span st).2 !! 1
    = Some (Some "db", Some (VStr "SELECT * FROM t")).
Proof.
  intros otel_span st.
  assert (objects st !! 1
          = Some (Sentry.new_child 0
                    (Sentry.ChildKwargs "1234567890abcdef" "Sample OTel Span"
                       (fromtimestamp_1e9 2000000000) "sentry"))) as Ho
    by (vm_compute; reflexivity).
  destruct (db_classification 1 otel_span st _ eq_refl Ho)
    as (o' & Hrun & Hop & Hdescription).
  split; [by rewrite Ho|]. rewrite Hrun. split; [reflexivity|].
  simpl. rewrite list_lookup_insert_eq by (apply lookup_lt_Some in Ho; exact Ho).
  simpl. by rewrite Hop, Hdescription.
Defined.






(** * Further properties *)

(** ** What classification changes on an object *)

(** Classification alters the object it is given and nothing else; the
    alteration copies the attributes into the data and keeps how the object
    was created, its name, its context blocks and its end time. *)
Lemma classification_shape (r : Sentry.ref) (otel_span : OTel.span)
  (st : processor) :
  ∃ out f,
    _update_span_with_otel_data r otel_span st
    = (out, Processor (otel_span_map st) (alter f r (objects st)))
    ∧ ∀ o, Sentry.created (f o) = Sentry.created o
           ∧ Sentry.name (f o) = Sentry.name o
           ∧ Sentry.data (f o) = OTel.attributes otel_span ∪ Sentry.data o
           ∧ Sentry.contexts (f o) = Sentry.contexts o
           ∧ Sentry.timestamp (f o) = Sentry.timestamp o.
Proof.
  destruct (if_truthy (OTel.attributes otel_span !! SpanAttributes.HTTP_METHOD))
    as [m|] eqn:Hm.
  - rewrite (update_span_http _ _ _ _ Hm).
    destruct (http_description _ _) as [d|].
    + eexists _, _. split; [reflexivity|]. intros o. unfold http_status_of.
      by destruct (if_truthy (_ !! SpanAttributes.HTTP_STATUS_CODE)).
    + eexists _, _. split; [reflexivity|]. done.
  - destruct (if_truthy (OTel.attributes otel_span !! SpanAttributes.DB_SYSTEM))
      as [d|] eqn:Hd.
    + rewrite (update_span_db _ _ _ _ Hm Hd).
      eexists _, _. split; [reflexivity|]. done.
    + rewrite (update_span_default _ _ _ Hm Hd).
      eexists _, _. split; [reflexivity|]. done.
Qed.

(** X1: whichever rules apply, and also when building the description
    raises, classification has put every attribute of the span into the
    data of the object, has kept the data entries under other keys, and
    has left the object's creation, name, context blocks and end time
    alone. *)
Theorem classification_copies_attributes (r : Sentry.ref)
  (otel_span : OTel.span) (st : processor) (o : Sentry.span) :
  objects st !! r = Some o →
  ∃ out o',
    _update_span_with_otel_data r otel_span st
    = (out, Processor (otel_span_map st) (<[r := o']> (objects st)))
    ∧ (∀ key val, OTel.attributes otel_span !! key = Some val →
         Sentry.data o' !! key = Some val)
    ∧ (∀ key, OTel.attributes otel_span !! key = None →
         Sentry.data o' !! key = Sentry.data o !! key)
    ∧ Sentry.created o' = Sentry.created o
    ∧ Sentry.name o' = Sentry.name o
    ∧ Sentry.contexts o' = Sentry.contexts o
    ∧ Sentry.timestamp o' = Sentry.timestamp o.
Proof.
  intros Ho.
  destruct (classification_shape r otel_span st) as (out & f & Hrun & Hf).
  destruct (Hf o) as (Hc & Hn & Hd & Hx & Ht).
  exists out, (f o). rewrite Hrun, (alter_at _ _ _ _ Ho).
  split; [reflexivity|]. rewrite Hd.
  split; [|split; [|done]].
  - intros key val Hk. by apply lookup_union_Some_l.
  - intros key Hk. by apply lookup_union_r.
Qed.

(** The child of a started root, with the attributes of an HTTP request. *)
Lemma classification_copies_attributes_witness :
  let otel_span := child_span http_attributes in
  let st := child_started http_attributes in
  Sentry.data <$> objects st !! 1 = Some ∅
  ∧ ∃ o', objects (_update_span_with_otel_data 1 otel_span st).2 !! 1 = Some o'
          ∧ Sentry.data o' !! "http.target" = Some (VStr "/")
          ∧ Sentry.data o' !! "db.system" = None.
Proof.
  intros otel_span st.
  assert (objects st !! 1
          = Some (Sentry.new_child 0
                    (Sentry.ChildKwargs "1234567890abcdef" "Sample OTel Span"
                       (fromtimestamp_1e9 2000000000) "sentry"))) as Ho
    by (vm_compute; reflexivity).
  destruct (classification_copies_attributes 1 otel_span st _ Ho)
    as (out & o' & Hrun & Hin & Hout & _).
  split; [by rewrite Ho|]. exists o'. rewrite Hrun. simpl.
  split; [apply list_lookup_insert_eq; by apply lookup_lt_Some in Ho|].
  split.
  - apply Hin. vm_compute. reflexivity.
  - rewrite Hout by (vm_compute; reflexivity). vm_compute. reflexivity.
Defined.

(** X2: a span without a true HTTP method and without a true database
    system keeps the defaults: classification returns with the span's name
    as operation and as description, and does not set an HTTP status, even
    if a status code attribute is there. *)
Theorem default_classification (r : Sentry.ref) (otel_span : OTel.span)
  (st : processor) (o : Sentry.span) :
  if_truthy (OTel.attributes otel_span !! SpanAttributes.HTTP_METHOD) = None →
  if_truthy (OTel.attributes otel_span !! SpanAttributes.DB_SYSTEM) = None →
  objects st !! r = Some o →
  ∃ o', _update_span_with_otel_data r otel_span st
        = (Returns (), Processor (otel_span_map st) (<[r := o']> (objects st)))
    ∧ Sentry.op o' = Some (OTel.name otel_span)
    ∧ Sentry.description o' = Some (VStr (OTel.name otel_span))
    ∧ Sentry.http_status o' = Sentry.http_status o.
Proof.
  intros Hm Hd Ho. rewrite (update_span_default _ _ _ Hm Hd).
  unfold update. rewrite (alter_at _ _ _ _ Ho).
  eexists. split; [reflexivity|]. done.
Qed.

(** A span with a status code and a target but no method. *)
Lemma default_classification_witness :
  let attrs : gmap string attr_value :=
    {[ "http.status_code" := VInt 500; "http.target" := VStr "/x" ]} in
  let otel_span := child_span attrs in
  let st := child_started attrs in
  (_update_span_with_otel_data 1 otel_span st).1 = Returns ()
  ∧ classification_view
      <$> objects (_update_span_with_otel_data 1 otel_span st).2 !! 1
    = Some (Some "Sample OTel Span", Some (VStr "Sample OTel Span"), None).
Proof.
  intros attrs otel_span st.
  assert (objects st !! 1
          = Some (Sentry.new_child 0
                    (Sentry.ChildKwargs "1234567890abcdef" "Sample OTel Span"
                       (fromtimestamp_1e9 2000000000) "sentry"))) as Ho
    by (vm_compute; reflexivity).
  destruct (default_classification 1 otel_span st _ eq_refl eq_refl Ho)
    as (o' & Hrun & Hop & Hdescription & Hstatus).
  rewrite Hrun. split; [reflexivity|]. simpl.
  rewrite list_lookup_insert_eq by (by apply lookup_lt_Some in Ho).
  simpl. unfold classification_view. by rewrite Hop, Hdescription, Hstatus.
Defined.

(** X3: for a span with a true database system and no true HTTP method the
    operation is "db"; the description is the statement when it is there
    and true, and the span's name otherwise (no statement, or an empty
    one); the HTTP status is never set. *)
Theorem db_classification_statement (r : Sentry.ref) (otel_span : OTel.span)
  (st : processor) (o : Sentry.span) (db_system : attr_value) :
  if_truthy (OTel.attributes otel_span !! SpanAttributes.HTTP_METHOD) = None →
  if_truthy (OTel.attributes otel_span !! SpanAttributes.DB_SYSTEM)
    = Some db_system →
  objects st !! r = Some o →
  ∃ o', _update_span_with_otel_data r otel_span st
        = (Returns (), Processor (otel_span_map st) (<[r := o']> (objects st)))
    ∧ Sentry.op o' = Some "db"
    ∧ Sentry.description o'
      = Some match if_truthy (OTel.attributes otel_span
                                !! SpanAttributes.DB_STATEMENT) with
             | Some statement => statement
             | None => VStr (OTel.name otel_span)
             end
    ∧ Sentry.http_status o' = Sentry.http_status o.
Proof.
  intros Hm Hd Ho. rewrite (update_span_db _ _ _ _ Hm Hd).
  unfold update. rewrite (alter_at _ _ _ _ Ho).
  eexists. split; [reflexivity|]. simpl.
  by destruct (if_truthy (_ !! SpanAttributes.DB_STATEMENT)).
Qed.

(** A database span with an empty statement and a status code. *)
Lemma db_classification_statement_witness :
  let attrs : gmap string attr_value :=
    {[ "db.system" := VStr "redis"; "db.statement" := VStr "";
       "http.status_code" := VInt 200 ]} in
  let otel_span := child_span attrs in
  let st := child_started attrs in
  (_update_span_with_otel_data 1 otel_span st).1 = Returns ()
  ∧ classification_view
      <$> objects (_update_span_with_otel_data 1 otel_span st).2 !! 1
    = Some (Some "db", Some (VStr "Sample OTel Span"), None).
Proof.
  intros attrs otel_span st.
  assert (objects st !! 1
          = Some (Sentry.new_child 0
                    (Sentry.ChildKwargs "1234567890abcdef" "Sample OTel Span"
                       (fromtimestamp_1e9 2000000000) "sentry"))) as Ho
    by (vm_compute; reflexivity).
  destruct (db_classification_statement 1 otel_span st _ (VStr "redis")
              eq_refl eq_refl Ho)
    as (o' & Hrun & Hop & Hdescription & Hstatus).
  rewrite Hrun. split; [reflexivity|]. simpl.
  rewrite list_lookup_insert_eq by (by apply lookup_lt_Some in Ho).
  simpl. unfold classification_view. by rewrite Hop, Hdescription, Hstatus.
Defined.

(** X4: the outcome of classification and the operation, description and
    HTTP status it leaves depend on the span only through its name and
    through the six attributes it looks up, taken as absent when false:
    other attributes, and false values of these six, change nothing but
    the data. *)
Theorem classification_reads_recognized_only (r : Sentry.ref)
  (span1 span2 : OTel.span) (st : processor) (o : Sentry.span) :
  OTel.name span1 = OTel.name span2 →
  (∀ key, key ∈ recognized →
     if_truthy (OTel.attributes span1 !! key)
     = if_truthy (OTel.attributes span2 !! key)) →
  objects st !! r = Some o →
  (_update_span_with_otel_data r span1 st).1
  = (_update_span_with_otel_data r span2 st).1
  ∧ classification_view
      <$> objects (_update_span_with_otel_data r span1 st).2 !! r
    = classification_view
        <$> objects (_update_span_with_otel_data r span2 st).2 !! r.
Proof.
  intros Hname Hsame Ho.
  assert (∀ key, key ∈ recognized →
            if_truthy (OTel.attributes span2 !! key)
            = if_truthy (OTel.attributes span1 !! key)) as Hs
    by (intros key Hk; symmetry; by apply Hsame).
  pose proof (Hs SpanAttributes.HTTP_METHOD ltac:(set_solver)) as Hm.
  pose proof (Hs SpanAttributes.NET_PEER_NAME ltac:(set_solver)) as Hp.
  pose proof (Hs SpanAttributes.HTTP_TARGET ltac:(set_solver)) as Ht.
  pose proof (Hs SpanAttributes.HTTP_STATUS_CODE ltac:(set_solver)) as Hc.
  pose proof (Hs SpanAttributes.DB_SYSTEM ltac:(set_solver)) as Hd.
  pose proof (Hs SpanAttributes.DB_STATEMENT ltac:(set_solver)) as Hq.
  destruct (if_truthy (OTel.attributes span1 !! SpanAttributes.HTTP_METHOD))
    as [m|] eqn:Hm1.
  - rewrite (update_span_http _ span1 _ _ Hm1), (update_span_http _ span2 _ _ Hm).
    unfold http_description, add_part, http_status_of.
    rewrite Hp, Ht, Hc. clear Hp Ht Hc.
    destruct (if_truthy (OTel.attributes span1 !! SpanAttributes.NET_PEER_NAME))
      as [peer|];
      destruct (if_truthy (OTel.attributes span1 !! SpanAttributes.HTTP_TARGET))
        as [target|];
      destruct (if_truthy (OTel.attributes span1
                             !! SpanAttributes.HTTP_STATUS_CODE)) as [code|];
      destruct m; simpl; rewrite ?list_lookup_alter_eq, ?Ho; done.
  - destruct (if_truthy (OTel.attributes span1 !! SpanAttributes.DB_SYSTEM))
      as [d|] eqn:Hd1.
    + rewrite (update_span_db _ span1 _ _ Hm1 Hd1),
        (update_span_db _ span2 _ _ Hm Hd).
      rewrite Hq, Hname. clear Hq. simpl. by rewrite !list_lookup_alter_eq, Ho.
    + rewrite (update_span_default _ span1 _ Hm1 Hd1),
        (update_span_default _ span2 _ Hm Hd).
      rewrite Hname. simpl. by rewrite !list_lookup_alter_eq, Ho.
Qed.

(** One more attribute and a false database system next to the attributes
    of an HTTP request. *)
Lemma classification_reads_recognized_only_witness :
  let span1 := child_span http_attributes in
  let span2 :=
    child_span (<["http.user_agent" := VStr "curl/7.64.1"]>
                  (<["db.system" := VStr ""]> http_attributes)) in
  let st := child_started ∅ in
  (_update_span_with_otel_data 1 span2 st).1 = Returns ()
  ∧ classification_view
      <$> objects (_update_span_with_otel_data 1 span2 st).2 !! 1
    = Some (Some "http.GET", Some (VStr "GET example.com /"), Some (VInt 429)).
Proof.
  intros span1 span2 st.
  assert (objects st !! 1
          = Some (Sentry.new_child 0
                    (Sentry.ChildKwargs "1234567890abcdef" "Sample OTel Span"
                       (fromtimestamp_1e9 2000000000) "sentry"))) as Ho
    by (vm_compute; reflexivity).
  assert (∀ key, key ∈ recognized →
            if_truthy (OTel.attributes span1 !! key)
            = if_truthy (OTel.attributes span2 !! key)) as Hsame.
  { intros key Hk. unfold recognized in Hk.
    repeat (apply elem_of_cons in Hk as [->|Hk]);
      try (vm_compute; reflexivity).
    by apply elem_of_nil in Hk. }
  destruct (classification_reads_recognized_only 1 span1 span2 st _
              eq_refl Hsame Ho) as [Hout Hview].
  rewrite <- Hout, <- Hview. split; vm_compute; reflexivity.
Defined.

(** ** The end of a span that is not a transaction *)







(** ** What a notification leaves alone *)

(** For a tracked span [on_end] removes the entry and alters the tracked
    object, keeping how it was created, whatever the outcome. *)
Lemma on_end_shape (pf : platform) (otel_span : OTel.span) (st : processor)
  (r : Sentry.ref) :
  tracked st otel_span = Some r →
  ∃ out f,
    on_end pf otel_span st
    = (out, Processor (delete (key_of otel_span) (otel_span_map st))
              (alter f r (objects st)))
    ∧ ∀ o, Sentry.created (f o) = Sentry.created o.
Proof.
  unfold tracked, key_of. intros Ht. unfold on_end.
  unfold mbind at 1. unfold method_bind at 1. unfold map_pop at 1.
  rewrite Ht. cbv beta iota.
  unfold mbind at 1. unfold method_bind at 1. unfold update at 1.
  cbv beta iota.
  unfold mbind at 1. unfold method_bind at 1. unfold read at 1.
  cbv beta iota.
  destruct (Sentry.is_transaction _).
  - unfold mbind, method_bind, set_context, finish, update, fromtimestamp.
    simpl. destruct (pf (OTel.end_time otel_span)); simpl;
      rewrite !list_alter_alter_eq; eexists _, _; (split; [reflexivity|]);
      done.
  - unfold mbind at 1. unfold method_bind at 1.
    match goal with
    | |- context [_update_span_with_otel_data ?r ?s ?p] =>
        destruct (classification_shape r s p) as (out & f & -> & Hf)
    end.
    simpl otel_span_map. simpl objects. rewrite list_alter_alter_eq.
    destruct out as [[]|e].
    + unfold mbind, method_bind, finish, update, fromtimestamp.
      destruct (pf (OTel.end_time otel_span)); simpl;
        rewrite ?list_alter_alter_eq; eexists _, _;
        (split; [reflexivity|]); intros o; simpl;
        by destruct (Hf (Sentry.with_op (OTel.name otel_span) o)) as [-> _].
    + eexists _, _. split; [reflexivity|]. intros o. simpl.
      by destruct (Hf (Sentry.with_op (OTel.name otel_span) o)) as [-> _].
Qed.

(** X7: [on_end] changes at most the object tracked for the span: every
    other object of the store is as before, no object is made or dropped,
    and no object, the tracked one included, changes how it was created
    (so a child stays attached to its parent). *)
Theorem on_end_frame (pf : platform) (otel_span : OTel.span)
  (st : processor) :
  length (objects (on_end pf otel_span st).2) = length (objects st)
  ∧ (∀ r, tracked st otel_span ≠ Some r →
       objects (on_end pf otel_span st).2 !! r = objects st !! r)
  ∧ (∀ r, Sentry.created <$> objects (on_end pf otel_span st).2 !! r
          = Sentry.created <$> objects st !! r).
Proof.
  destruct (tracked st otel_span) as [r0|] eqn:Ht.
  - destruct (on_end_shape pf _ _ _ Ht) as (out & f & -> & Hf). simpl.
    split; [apply length_alter|]. split.
    + intros r Hr. apply list_lookup_alter_ne. congruence.
    + intros r. destruct (decide (r0 = r)) as [->|Hne].
      * rewrite list_lookup_alter_eq.
        destruct (objects st !! r); simpl; [|done]. by rewrite Hf.
      * by rewrite list_lookup_alter_ne.
  - unfold tracked, key_of in Ht. unfold on_end, mbind, method_bind, map_pop.
    rewrite Ht. done.
Qed.

(** X8: under an active session [on_start] either raises, when the start
    time cannot be converted, and then leaves the dictionary and the
    objects as they were, or touches one entry of the dictionary, the one
    of the span's own id: it then refers to the new object, whether the id
    was tracked before (the earlier object is dropped from the dictionary,
    and the size stays) or not (the size grows by one); every other entry
    and every object made before are as they were. *)
Theorem on_start_entry (pf : platform) (otel_span : OTel.span)
  (ctx : parent_context) (st : processor) :
  match pf (OTel.start_time otel_span) with
  | Some e => on_start pf true otel_span ctx st = (Raises (TimeError e), st)
  | None =>
      let st' := (on_start pf true otel_span ctx st).2 in
      (on_start pf true otel_span ctx st).1 = Returns ()
      ∧ otel_span_map st' !! key_of otel_span = Some (length (objects st))
      ∧ (∀ id, id ≠ key_of otel_span →
           otel_span_map st' !! id = otel_span_map st !! id)
      ∧ size (otel_span_map st')
        = match tracked st otel_span with
          | Some _ => size (otel_span_map st)
          | None => S (size (otel_span_map st))
          end
      ∧ length (objects st') = S (length (objects st))
      ∧ (∀ r o, objects st !! r = Some o → objects st' !! r = Some o)
  end.
Proof.
  rewrite on_start_with_hub.
  destruct (pf (OTel.start_time otel_span)) as [e|]; [reflexivity|]. simpl.
  split; [reflexivity|].
  split; [apply lookup_insert_eq|].
  split; [intros id Hne; by apply lookup_insert_ne|].
  split; [|split].
  - unfold tracked.
    change (td_span_id (_get_trace_data otel_span ctx)) with (key_of otel_span).
    destruct (otel_span_map st !! key_of otel_span) eqn:Hk.
    + by apply map_size_insert_Some.
    + by apply map_size_insert_None.
  - rewrite length_app. simpl. lia.
  - intros r o Ho. by apply lookup_app_l_Some.
Qed.

(** The root span starts a second time while it is tracked, and a span
    with a start time beyond the year 9999 starts. *)
Lemma on_start_entry_witness :
  let st' :=
    (on_start sample_platform true root_span no_context root_started).2 in
  (tracked root_started root_span = Some 0
   ∧ otel_span_map st' !! "abcdef1234567890" = Some 1
   ∧ size (otel_span_map st') = 1)
  ∧ on_start sample_platform true (late_span None) no_context root_started
    = (Raises (TimeError ValueError), root_started).
Proof.
  intros st'. split.
  - assert (tracked root_started root_span = Some 0) as Ht
      by (vm_compute; reflexivity).
    pose proof (on_start_entry sample_platform root_span no_context
                  root_started) as Hentry.
    assert (sample_platform (OTel.start_time root_span) = None) as Htime
      by (vm_compute; reflexivity).
    rewrite Htime in Hentry. destruct Hentry as (_ & Hnew & _ & Hsize & _).
    split; [exact Ht|]. split; [exact Hnew|].
    rewrite Ht in Hsize.
    transitivity (size (otel_span_map root_started)); [exact Hsize|].
    vm_compute. reflexivity.
  - pose proof (on_start_entry sample_platform (late_span None) no_context
                  root_started) as Hentry.
    assert (sample_platform (OTel.start_time (late_span None))
            = Some ValueError) as Htime by (vm_compute; reflexivity).
    rewrite Htime in Hentry. exact Hentry.
Defined.

(** X9: [on_start] reads the context for the baggage only: contexts with
    the same baggage give the same outcome and state, whatever they hold
    under the sentry-trace key; and when the span's parent is tracked, the
    context is not used at all. *)
Theorem on_start_reads_baggage_only (pf : platform) (hub : bool)
  (otel_span : OTel.span) (ctx1 ctx2 : parent_context) (st : processor) :
  sentry_baggage ctx1 = sentry_baggage ctx2
  ∨ is_Some (tracked_parent st otel_span) →
  on_start pf hub otel_span ctx1 st = on_start pf hub otel_span ctx2 st.
Proof.
  intros Hsame. destruct hub; [|reflexivity].
  rewrite !on_start_with_hub. unfold _get_trace_data, get_value_sentry_baggage.
  simpl. destruct (pf (OTel.start_time otel_span)); [reflexivity|].
  destruct Hsame as [Hb|[parent Hp]].
  - by rewrite Hb.
  - by rewrite Hp.
Qed.

(** Two contexts with different continuation data and the same baggage,
    and two contexts with different baggage under a tracked parent. *)
Lemma on_start_reads_baggage_only_witness :
  on_start sample_platform true root_span
    (ParentContext (Some ("771a43a4192642f0b136d5159a501700",
                          "1234567890abcdef", Some true)) (Some "a=b"))
    (Processor ∅ [])
  = on_start sample_platform true root_span (ParentContext None (Some "a=b"))
      (Processor ∅ [])
  ∧ on_start sample_platform true (child_span ∅)
      (ParentContext None (Some "a=b")) root_started
    = on_start sample_platform true (child_span ∅) no_context root_started.
Proof.
  split.
  - apply on_start_reads_baggage_only. by left.
  - apply on_start_reads_baggage_only. right. exists 0.
    vm_compute. reflexivity.
Defined.

(** While a root is tracked next to the child that ends, the root's object
    is as before. *)
Lemma on_end_frame_witness :
  let otel_span := child_span http_attributes in
  let st := child_started http_attributes in
  tracked st otel_span ≠ Some 0
  ∧ objects (on_end sample_platform otel_span st).2 !! 0 = objects st !! 0
  ∧ length (objects (on_end sample_platform otel_span st).2) = 2.
Proof.
  intros otel_span st.
  assert (tracked st otel_span ≠ Some 0) as Hne by (vm_compute; discriminate).
  destruct (on_end_frame sample_platform otel_span st) as (Hlen & Hother & _).
  split; [exact Hne|]. split; [exact (Hother 0 Hne)|].
  rewrite Hlen. vm_compute. reflexivity.
Defined.

(** ** States reached by notifications *)

Lemma notify_keeps_invariant (pf : platform) (e : event) (st : processor) :
  tracked_untouched st ∧ parents_before st →
  tracked_untouched (notify pf e st) ∧ parents_before (notify pf e st).
Proof.
  intros [Htr Hpar]. destruct e as [hub otel_span ctx|otel_span]; simpl.
  - destruct hub; [|done]. rewrite on_start_with_hub.
    destruct (pf (OTel.start_time otel_span)); [done|]. simpl. split.
    + intros id r. simpl.
      destruct (decide (format_span_id (OTel.span_id (OTel.context otel_span))
                        = id)) as [<-|Hne].
      * rewrite lookup_insert_eq. intros [= <-].
        rewrite lookup_app_r, Nat.sub_diag by done. simpl.
        eexists. split; [reflexivity|].
        by destruct (tracked_parent st otel_span).
      * rewrite lookup_insert_ne by done. intros Hid.
        destruct (Htr id r Hid) as (o & Ho & Hrest).
        exists o. split; [by apply lookup_app_l_Some|done].
    + intros r o parent kwargs. simpl. intros Ho Hc.
      destruct (decide (r < length (objects st))) as [Hlt|Hge].
      * rewrite lookup_app_l in Ho by done. by apply (Hpar r o parent kwargs).
      * rewrite lookup_app_r in Ho by lia.
        destruct (r - length (objects st)) as [|k] eqn:Hk; simpl in Ho; [|done].
        injection Ho as <-.
        destruct (tracked_parent st otel_span) as [p|] eqn:Hp; [|done].
        simpl in Hc. injection Hc as <- _.
        unfold tracked_parent in Hp.
        destruct (OTel.parent otel_span) as [pc|]; [|done].
        destruct (Htr _ _ Hp) as (po & Hpo & _).
        apply lookup_lt_Some in Hpo. lia.
  - destruct (tracked st otel_span) as [r0|] eqn:Ht.
    + destruct (on_end_shape pf _ _ _ Ht) as (out & f & -> & Hf). simpl.
      destruct (Htr _ _ Ht) as (o0 & Ho0 & Hid0 & _). split.
      * intros id r. simpl. intros Hid.
        apply lookup_delete_Some in Hid as [Hne Hid].
        destruct (Htr id r Hid) as (o & Ho & Hcid & Hrest).
        exists o. split; [|done].
        rewrite list_lookup_alter_ne; [done|].
        intros <-. rewrite Ho0 in Ho. injection Ho as <-. congruence.
      * intros r o parent kwargs. simpl. intros Ho Hc.
        destruct (decide (r0 = r)) as [<-|Hne].
        -- rewrite list_lookup_alter_eq, Ho0 in Ho. simpl in Ho.
           injection Ho as <-. rewrite Hf in Hc.
           by apply (Hpar r0 o0 parent kwargs).
        -- rewrite list_lookup_alter_ne in Ho by done.
           by apply (Hpar r o parent kwargs).
    + unfold tracked, key_of in Ht.
      unfold on_end, mbind, method_bind, map_pop. rewrite Ht. done.
Qed.

Lemma replay_tracked_invariant (pf : platform) (history : list event) :
  tracked_untouched (replay pf history) ∧ parents_before (replay pf history).
Proof.
  induction history as [|e earlier IH]; simpl.
  - split.
    + intros id r. simpl. by rewrite lookup_empty.
    + intros r o parent kwargs. simpl. by rewrite lookup_nil.
  - by apply notify_keeps_invariant.
Qed.

(** X10: in every state reached from the start of the process by start and
    end notifications, each entry of the dictionary refers to an object of
    the store that was created with the entry's key as span id and that no
    [on_end] has touched (no operation set, not finished), so distinct
    entries refer to distinct objects; and every child was started on an
    object made before it. *)
Theorem replay_tracked_untouched (pf : platform) (history : list event) :
  tracked_untouched (replay pf history)
  ∧ parents_before (replay pf history)
  ∧ (∀ id1 id2 r,
       otel_span_map (replay pf history) !! id1 = Some r →
       otel_span_map (replay pf history) !! id2 = Some r → id1 = id2).
Proof.
  destruct (replay_tracked_invariant pf history) as [Htr Hpar].
  split; [done|]. split; [done|].
  intros id1 id2 r H1 H2.
  destruct (Htr _ _ H1) as (o1 & Ho1 & <- & _).
  destruct (Htr _ _ H2) as (o2 & Ho2 & <- & _).
  congruence.
Qed.

(** A root, its child and the end of the root: the child is still tracked
    and untouched. *)
Lemma replay_tracked_untouched_witness :
  let history :=
    [End root_span; Start true (child_span ∅) no_context;
     Start true root_span no_context] in
  otel_span_map (replay sample_platform history) !! "1234567890abcdef" = Some 1
  ∧ ∃ o, objects (replay sample_platform history) !! 1 = Some o
         ∧ created_span_id o = "1234567890abcdef"
         ∧ Sentry.timestamp o = None.
Proof.
  intros history.
  assert (otel_span_map (replay sample_platform history)
            !! "1234567890abcdef" = Some 1) as Hk
    by (vm_compute; reflexivity).
  destruct (replay_tracked_untouched sample_platform history) as (Htr & _).
  destruct (Htr _ _ Hk) as (o & Ho & Hid & _ & Htime).
  split; [exact Hk|]. exists o.
  split; [exact Ho|]. split; [exact Hid|exact Htime].
Defined.

(** X11: a span whose start time can be converted and that starts when its
    parent is not tracked (the parent has ended, or never started under a
    session, or its own start raised) is not attached to anything:
    [on_start] makes a transaction for it, which still carries the
    parent's formatted id as parent span id. *)
Theorem on_start_orphan_starts_transaction (pf : platform)
  (history : list event) (otel_span : OTel.span) (ctx : parent_context)
  (parent : OTel.span_context) :
  OTel.parent otel_span = Some parent →
  tracked_live pf history (format_span_id (OTel.span_id parent)) = false →
  pf (OTel.start_time otel_span) = None →
  let st := replay pf history in
  let st' := (on_start pf true otel_span ctx st).2 in
  ∃ kwargs,
    (on_start pf true otel_span ctx st).1 = Returns ()
    ∧ otel_span_map st' !! key_of otel_span = Some (length (objects st))
    ∧ objects st' !! length (objects st) = Some (Sentry.new_transaction kwargs)
    ∧ Sentry.tx_span_id kwargs = key_of otel_span
    ∧ Sentry.tx_parent_span_id kwargs
      = Some (format_span_id (OTel.span_id parent)).
Proof.
  intros Hp Hdead Htime st st'. subst st st'.
  assert (tracked_parent (replay pf history) otel_span = None) as Hnone.
  { unfold tracked_parent. rewrite Hp. apply not_elem_of_dom.
    rewrite replay_dom, Hdead. discriminate. }
  rewrite on_start_with_hub, Htime. simpl. rewrite Hnone.
  eexists. split; [reflexivity|]. split; [apply lookup_insert_eq|].
  split; [by rewrite lookup_app_r, Nat.sub_diag|].
  split; [reflexivity|]. simpl. unfold _get_trace_data. simpl. by rewrite Hp.
Qed.

(** The root starts and ends, then its child starts. *)
Lemma on_start_orphan_starts_transaction_witness :
  let history := [End root_span; Start true root_span no_context] in
  let st' :=
    (on_start sample_platform true (child_span ∅) no_context
       (replay sample_platform history)).2 in
  Sentry.created <$> objects st' !! 1
  = Some (Sentry.start_transaction
            (Sentry.TransactionKwargs "Sample OTel Span" "1234567890abcdef"
               (Some "abcdef1234567890") "1234567890abcdef1234567890abcdef"
               None (fromtimestamp_1e9 2000000000) "sentry")).
Proof.
  intros history st'.
  destruct (on_start_orphan_starts_transaction sample_platform history
              (child_span ∅) no_context (OTel.context root_span) eq_refl)
    as (kwargs & _ & _ & Hobj & _); [vm_compute; reflexivity..|].
  vm_compute. reflexivity.
Defined.

(** For a tracked span [on_end] returns, or raises [TypeError], or raises
    the error of the conversion of the end time. *)
Lemma on_end_tracked_no_key_error (pf : platform) (otel_span : OTel.span)
  (st : processor) (r : Sentry.ref) :
  tracked st otel_span = Some r →
  match (on_end pf otel_span st).1 with
  | Returns _ => pf (OTel.end_time otel_span) = None
  | Raises e =>
      e = TypeError
      ∨ ∃ te, pf (OTel.end_time otel_span) = Some te ∧ e = TimeError te
  end.
Proof.
  unfold tracked, key_of. intros Ht. unfold on_end.
  unfold mbind at 1. unfold method_bind at 1. unfold map_pop at 1.
  rewrite Ht. cbv beta iota.
  unfold mbind at 1. unfold method_bind at 1. unfold update at 1.
  cbv beta iota.
  unfold mbind at 1. unfold method_bind at 1. unfold read at 1.
  cbv beta iota.
  destruct (Sentry.is_transaction _).
  - unfold mbind, method_bind, set_context, finish, update, fromtimestamp.
    simpl. destruct (pf (OTel.end_time otel_span)) as [te|]; simpl; eauto.
  - unfold mbind at 1. unfold method_bind at 1.
    destruct (_update_span_with_otel_data _ _ _) as [[[]|e] st1] eqn:Hrun.
    + unfold mbind, method_bind, finish, update, fromtimestamp.
      destruct (pf (OTel.end_time otel_span)) as [te|]; simpl; eauto.
    + simpl. left.
      revert Hrun.
      destruct (if_truthy (OTel.attributes otel_span
                             !! SpanAttributes.HTTP_METHOD)) as [m|] eqn:Hm.
      * rewrite (update_span_http _ _ _ _ Hm).
        destruct (http_description _ _); [discriminate|congruence].
      * destruct (if_truthy (OTel.attributes otel_span
                               !! SpanAttributes.DB_SYSTEM)) as [d|] eqn:Hd.
        -- by rewrite (update_span_db _ _ _ _ Hm Hd).
        -- by rewrite (update_span_default _ _ _ Hm Hd).
Qed.



(** X13: a span that starts under an active session with a start time that
    can be converted can be ended without a [KeyError], and its start
    followed by its end leaves the dictionary without the span's id and
    otherwise as it was before the start; when the id was not tracked
    before, the dictionary is back as it was.  When the start time cannot
    be converted and the id was not tracked before, the start has stored
    nothing and the end raises [KeyError]. *)
Theorem start_then_end (pf : platform) (otel_span : OTel.span)
  (ctx : parent_context) (st : processor) :
  let started := (on_start pf true otel_span ctx st).2 in
  (pf (OTel.start_time otel_span) = None →
   (∀ key, (on_end pf otel_span started).1 ≠ Raises (KeyError key))
   ∧ otel_span_map (on_end pf otel_span started).2
     = delete (key_of otel_span) (otel_span_map st)
   ∧ (tracked st otel_span = None →
      otel_span_map (on_end pf otel_span started).2 = otel_span_map st))
  ∧ (pf (OTel.start_time otel_span) ≠ None →
     tracked st otel_span = None →
     on_end pf otel_span started
     = (Raises (KeyError (key_of otel_span)), st)).
Proof.
  intros started. split.
  - intros Htime.
    assert (tracked started otel_span = Some (length (objects st))) as Ht.
    { unfold tracked, started. rewrite on_start_map, Htime. simpl.
      apply lookup_insert_eq. }
    split.
    { intros key Hk.
      pose proof (on_end_tracked_no_key_error pf _ _ _ Ht) as Hout.
      rewrite Hk in Hout. destruct Hout as [?|(te & _ & ?)]; done. }
    assert (otel_span_map (on_end pf otel_span started).2
            = delete (key_of otel_span) (otel_span_map st)) as Hmap.
    { rewrite on_end_map. unfold started. rewrite on_start_map, Htime. simpl.
      apply delete_insert_eq. }
    split; [exact Hmap|].
    intros Hnone. rewrite Hmap. by apply delete_id.
  - intros Htime Hnone. unfold started. rewrite on_start_with_hub.
    destruct (pf (OTel.start_time otel_span)); [|done]. simpl.
    unfold tracked, key_of in *.
    unfold on_end, mbind, method_bind, map_pop. by rewrite Hnone.
Qed.

(** A child starts and ends while its root stays tracked. *)
Lemma start_then_end_witness :
  let otel_span := child_span db_attributes in
  tracked root_started otel_span = None
  ∧ sample_platform (OTel.start_time otel_span) = None
  ∧ otel_span_map
      (on_end sample_platform otel_span
         (on_start sample_platform true otel_span no_context root_started).2).2
    = otel_span_map root_started.
Proof.
  intros otel_span.
  assert (tracked root_started otel_span = None) as Hnone
    by (vm_compute; reflexivity).
  assert (sample_platform (OTel.start_time otel_span) = None) as Htime
    by (vm_compute; reflexivity).
  split; [exact Hnone|]. split; [exact Htime|].
  destruct (start_then_end sample_platform otel_span no_context root_started)
    as (Hok & _).
  destruct (Hok Htime) as (_ & _ & Hback).
  exact (Hback Hnone).
Defined.

(** ** The ids in the trace data *)

Lemma hex_digit_lower (d : N) : is_lower_hex (hex_digit d) = true.
Proof.
  destruct d as [|p]; [vm_compute; reflexivity|].
  do 4 (try destruct p as [p|p|]); vm_compute; reflexivity.
Qed.

Lemma hex_digits_lower (k : nat) (n : N) (acc : string) :
  string_forall is_lower_hex acc = true →
  string_forall is_lower_hex (hex_digits k n acc) = true.
Proof.
  revert n acc. induction k as [|k IH]; intros n acc Hacc; simpl; [done|].
  apply IH. simpl. by rewrite hex_digit_lower, Hacc.
Qed.

Lemma hex_length_le (n : N) (bits : N) :
  (n < 2 ^ (4 * bits))%N → (0 < bits)%N → hex_length n ≤ N.to_nat bits.
Proof.
  intros Hn Hbits. destruct n as [|p]; [simpl; lia|].
  apply N.log2_lt_pow2 in Hn; [|done].
  assert (N.log2 (N.pos p) / 4 < bits)%N
    by (apply N.Div0.div_lt_upper_bound; lia).
  unfold hex_length. lia.
Qed.

(** X14: the ids [_get_trace_data] returns are lowercase hexadecimal
    strings: the span id has 16 characters for an id below 2^64 and never
    fewer, the trace id 32 characters for an id below 2^128, and spans
    with different span ids get different strings, hence different keys in
    the dictionary. *)
Theorem get_trace_data_ids (otel_span other : OTel.span)
  (ctx ctx' : parent_context) :
  let td := _get_trace_data otel_span ctx in
  string_forall is_lower_hex (td_span_id td) = true
  ∧ string_forall is_lower_hex (td_trace_id td) = true
  ∧ 16 ≤ String.length (td_span_id td)
  ∧ ((OTel.span_id (OTel.context otel_span) < 2 ^ 64)%N →
     String.length (td_span_id td) = 16)
  ∧ ((OTel.trace_id (OTel.context otel_span) < 2 ^ 128)%N →
     String.length (td_trace_id td) = 32)
  ∧ (td_span_id td = td_span_id (_get_trace_data other ctx') →
     OTel.span_id (OTel.context otel_span) = OTel.span_id (OTel.context other)).
Proof.
  intros td. subst td. unfold _get_trace_data. simpl.
  split; [by apply hex_digits_lower|]. split; [by apply hex_digits_lower|].
  unfold format_span_id, format_trace_id. rewrite !format_hex_length.
  split; [lia|]. split; [|split].
  - intros Hn. pose proof (hex_length_le _ 16 Hn ltac:(done)). lia.
  - intros Hn. pose proof (hex_length_le _ 32 Hn ltac:(done)). lia.
  - apply format_hex_inj.
Qed.

(** The ids of the sample span. *)
Lemma get_trace_data_ids_witness :
  let td := _get_trace_data (child_span ∅) no_context in
  (OTel.span_id (OTel.context (child_span ∅)) < 2 ^ 64)%N
  ∧ String.length (td_span_id td) = 16
  ∧ String.length (td_trace_id td) = 32.
Proof.
  intros td.
  destruct (get_trace_data_ids (child_span ∅) root_span no_context no_context)
    as (_ & _ & _ & Hspan & Htrace & _).
  assert (OTel.span_id (OTel.context (child_span ∅)) < 2 ^ 64)%N as Hn
    by (vm_compute; reflexivity).
  split; [exact Hn|]. split; [exact (Hspan Hn)|].
  apply Htrace. vm_compute. reflexivity.
Defined.

(** ** Children in reached states *)

(** X15: in a state reached by notifications, a span whose start time can
    be converted and that starts while its parent is tracked becomes a child
    of the object that was created for the parent's span id, and that
    object has not been finished. *)
Theorem child_attached_to_live_parent (pf : platform) (history : list event)
  (otel_span : OTel.span) (ctx : parent_context) (parent : OTel.span_context) :
  OTel.parent otel_span = Some parent →
  tracked_live pf history (format_span_id (OTel.span_id parent)) = true →
  pf (OTel.start_time otel_span) = None →
  let st := replay pf history in
  let st' := (on_start pf true otel_span ctx st).2 in
  ∃ p po kwargs,
    (on_start pf true otel_span ctx st).1 = Returns ()
    ∧ objects st' !! length (objects st) = Some (Sentry.new_child p kwargs)
    ∧ Sentry.ch_span_id kwargs = key_of otel_span
    ∧ otel_span_map st !! format_span_id (OTel.span_id parent) = Some p
    ∧ objects st' !! p = Some po
    ∧ created_span_id po = format_span_id (OTel.span_id parent)
    ∧ Sentry.timestamp po = None.
Proof.
  intros Hp Hlive Htime st st'. subst st st'.
  apply replay_dom, elem_of_dom in Hlive as [p Hk].
  destruct (replay_tracked_invariant pf history) as [Htr _].
  destruct (Htr _ _ Hk) as (po & Hpo & Hid & _ & Hfin).
  assert (tracked_parent (replay pf history) otel_span = Some p) as Ht
    by (unfold tracked_parent; by rewrite Hp).
  rewrite on_start_with_hub, Htime. simpl. rewrite Ht.
  eexists p, po, _. split; [reflexivity|].
  split; [by rewrite lookup_app_r, Nat.sub_diag|].
  split; [reflexivity|]. split; [exact Hk|].
  split; [by apply lookup_app_l_Some|]. done.
Qed.

(** The child of the started root. *)
Lemma child_attached_to_live_parent_witness :
  let history := [Start true root_span no_context] in
  let st' :=
    (on_start sample_platform true (child_span ∅) no_context
       (replay sample_platform history)).2 in
  ∃ kwargs po,
    objects st' !! 1 = Some (Sentry.new_child 0 kwargs)
    ∧ objects st' !! 0 = Some po
    ∧ created_span_id po = "abcdef1234567890".
Proof.
  intros history st'.
  destruct (child_attached_to_live_parent sample_platform history
              (child_span ∅) no_context (OTel.context root_span) eq_refl)
    as (p & po & kwargs & _ & Hchild & _ & Hk & Hpo & Hid & _);
    [vm_compute; reflexivity..|].
  assert (p = 0) as -> by (vm_compute in Hk; by injection Hk).
  exists kwargs, po. split; [exact Hchild|]. split; [exact Hpo|exact Hid].
Defined.

(** ** Times that cannot be converted *)


